(** * Voyager document graph: the Model component and the CVDocument component

    A shallow embedding of
    - [source/client/explorer/components/Model.ts] (module [ModelTs]) and
    - the [CVDocument] component (module [CVDocumentTs]),
    followed by the properties the specification states about them.

    Conventions of the embedding.
    - A method of a class is a computation [M St A = St -> Completion A * St]:
      it reads and writes the fields of the object (and the objects it
      reaches) and either returns normally or throws.  A thrown error does
      NOT roll the state back, exactly as in JavaScript.
    - A [Promise] is represented by its settlement.  The execution model is
      single threaded and the callbacks of a promise chain are run to
      settlement in the order the chain fixes.
    - [console.log] / [console.warn] output is not part of the state.
    - Calls into collaborators that are not part of the sources (the asset
      loader, the schema validator, the scene (de)serialiser, THREE.js) are
      section variables or journal entries. *)

From Stdlib Require Import ZArith List String Bool Lia Floats.
From stdpp Require Import base option list gmap strings.

Open Scope string_scope.
Open Scope list_scope.
Open Scope Z_scope.

(** ** Completions, promises and the method monad *)

Inductive Error : Type :=
| MkError (message : string)
| TypeError (message : string).

Inductive Completion (A : Type) : Type :=
| Normal (a : A)
| Throw (e : Error).
Arguments Normal {A} a.
Arguments Throw {A} e.

Inductive Promise (A : Type) : Type :=
| Resolved (a : A)
| Rejected (e : Error).
Arguments Resolved {A} a.
Arguments Rejected {A} e.

Definition M (St A : Type) : Type := St -> Completion A * St.

Definition ret {St A} (a : A) : M St A := fun s => (Normal a, s).

Definition bind {St A B} (c : M St A) (k : A -> M St B) : M St B :=
  fun s =>
    match c s with
    | (Normal a, s') => k a s'
    | (Throw e, s') => (Throw e, s')
    end.

Definition throw {St A} (e : Error) : M St A := fun s => (Throw e, s).
Definition gets {St A} (f : St -> A) : M St A := fun s => (Normal (f s), s).
Definition modify {St} (f : St -> St) : M St unit := fun s => (Normal tt, f s).

Declare Scope method_scope.
Delimit Scope method_scope with method.
Notation "'let!' x ':=' c 'in' k" := (bind c (fun x => k))
  (at level 10, x name, c at level 100, k at level 200) : method_scope.
Notation "c ;; k" := (bind c (fun _ => k))
  (at level 100, k at level 200, right associativity) : method_scope.

(** [forEach l body]: [l.forEach(body)]. *)
Fixpoint forEach {St A} (l : list A) (body : A -> M St unit) : M St unit :=
  match l with
  | [] => ret tt
  | x :: l' => bind (body x) (fun _ => forEach l' body)
  end.

(** ** Arrays: [indexOf] and [splice] as ECMAScript defines them *)

Section Arrays.
Context {A : Type} `{EqDecision A}.

(** [l.indexOf(x)] started at position [i]: the first index holding a
    value strictly equal to [x], or [-1]. *)
Fixpoint indexOf_from (i : Z) (x : A) (l : list A) : Z :=
  match l with
  | [] => -1
  | y :: l' => if decide (y = x) then i else indexOf_from (i + 1) x l'
  end.

Definition indexOf (x : A) (l : list A) : Z := indexOf_from 0 x l.

(** [l.splice(start, deleteCount)] without inserted items: a negative
    [start] counts from the end, both numbers are clamped to the array. *)
Definition splice (start deleteCount : Z) (l : list A) : list A :=
  let len := Z.of_nat (length l) in
  let actualStart :=
    if start <? 0 then Z.max (len + start) 0 else Z.min start len in
  let actualDeleteCount := Z.min (Z.max deleteCount 0) (len - actualStart) in
  take (Z.to_nat actualStart) l
    ++ drop (Z.to_nat (actualStart + actualDeleteCount)) l.
End Arrays.

(** Counted loops.  [for_up n i body] runs [body i], [body (i+1)], ... for
    at most [n] indices and stops at the first index where the body
    returns; [for_down] is the same with a decreasing index. *)
Fixpoint for_up {R} (n : nat) (i : Z) (body : Z -> option R) : option R :=
  match n with
  | O => None
  | S n' =>
      match body i with
      | Some r => Some r
      | None => for_up n' (i + 1) body
      end
  end.

Fixpoint for_down {R} (n : nat) (i : Z) (body : Z -> option R) : option R :=
  match n with
  | O => None
  | S n' =>
      match body i with
      | Some r => Some r
      | None => for_down n' (i - 1) body
      end
  end.

(** [l[i]] for a [Z] index: [None] is JavaScript's [undefined]. *)
Definition at_index {A} (l : list A) (i : Z) : option A :=
  if i <? 0 then None else l !! Z.to_nat i.

(** * Model.ts *)

Module ModelTs.

(** Modelled from the spec: the enumerations [EDerivativeQuality] and
    [EDerivativeUsage] are declared in [../models/Derivative], which is not
    among the sources.  The members [Model.ts] names are constructors; the
    last constructor of each type stands for any further member, which is
    what the guard of [selectDerivative] on [_qualityLevels.indexOf] is
    about. *)
Inductive EDerivativeQuality : Type :=
| Thumb | Low | Medium | High | Highest
| OtherQuality (n : nat).

Inductive EDerivativeUsage : Type :=
| Web
| OtherUsage (n : nat).

Inductive EAssetType : Type := AssetModel | AssetGeometry | AssetImage.
Inductive EMapType : Type := MapColor.

#[global] Instance EDerivativeQuality_eq_dec : EqDecision EDerivativeQuality.
Proof. solve_decision. Defined.
#[global] Instance EDerivativeUsage_eq_dec : EqDecision EDerivativeUsage.
Proof. solve_decision. Defined.
#[global] Instance EAssetType_eq_dec : EqDecision EAssetType.
Proof. solve_decision. Defined.
#[global] Instance EMapType_eq_dec : EqDecision EMapType.
Proof. solve_decision. Defined.

Record Asset : Type := {
  uri : string;
  assetType : EAssetType;
  mapType : option EMapType
}.

#[global] Instance Asset_eq_dec : EqDecision Asset.
Proof. solve_decision. Defined.

(** A derivative descriptor.  [oid] is the identity of the JavaScript
    object; [usage], [quality] and the asset list are fixed at
    construction.  What [load] attaches to the object later
    ([derivative.model], [derivative.boundingBox]) lives in the store
    [loaded] of the state, keyed by [oid], so that every alias of the
    derivative sees it. *)
Record Derivative : Type := {
  oid : nat;
  usage : EDerivativeUsage;
  quality : EDerivativeQuality;
  assets : list Asset
}.

#[global] Instance Derivative_eq_dec : EqDecision Derivative.
Proof. solve_decision. Defined.

(** const _qualityLevels = [ Thumb, Low, Medium, High, Highest ] *)
Definition _qualityLevels : list EDerivativeQuality :=
  [Thumb; Low; Medium; High; Highest].

(** usage = usage !== undefined ? usage : EDerivativeUsage.Web *)
Definition usageOrWeb (usage : option EDerivativeUsage) : EDerivativeUsage :=
  match usage with
  | Some u => u
  | None => Web
  end.

(** The loop of [findDerivative] over [this.derivatives]: the first
    element whose usage and quality are the requested ones.  The array
    holds [Derivative] objects, so the null test of the loop body always
    passes. *)
Fixpoint findIn (derivatives : list Derivative)
    (quality : EDerivativeQuality) (usage : EDerivativeUsage)
    : option Derivative :=
  match derivatives with
  | [] => None
  | derivative :: rest =>
      if bool_decide (derivative.(ModelTs.usage) = usage)
         && bool_decide (derivative.(ModelTs.quality) = quality)
      then Some derivative
      else findIn rest quality usage
  end.

(** THREE.js values.  Coordinates are IEEE doubles; the methods below only
    store and copy them. *)
Definition number : Type := float.

Record Vector3 : Type := { x : number; y : number; z : number }.
Record Box3 : Type := { min : Vector3; max : Vector3 }.
Definition Matrix4 : Type := list number.

(** new THREE.Box3(): the empty box, min = +Infinity, max = -Infinity. *)
Definition newBox3 : Box3 :=
  {| min := {| x := infinity; y := infinity; z := infinity |};
     max := {| x := neg_infinity; y := neg_infinity; z := neg_infinity |} |}.

(** box.clone() *)
Definition clone (b : Box3) : Box3 := {| min := b.(min); max := b.(max) |}.

(** Identity of a THREE.Object3D (a loaded model, the box helper). *)
Definition Object3D : Type := nat.
(** Handle of the loading collaborator. *)
Definition LoadingManager : Type := nat.
Definition TUnitType : Type := string.

(** What [derivative.load] leaves on the derivative object. *)
Record Loaded : Type := {
  d_model : option Object3D;
  d_boundingBox : option Box3
}.

(** Settlement of [derivative.load(loadingManager, assetPath)]. *)
Inductive LoadOutcome : Type :=
| LoadResolved (l : Loaded)
| LoadRejected (e : Error).

(** common/types/item: IModel, with the enum names already resolved
    ([EDerivativeUsage[data.usage]], [EDerivativeQuality[data.quality]]). *)
Record IDerivative : Type := {
  data_usage : EDerivativeUsage;
  data_quality : EDerivativeQuality;
  data_assets : list Asset
}.

Record IBoundingBox : Type := { data_min : Vector3; data_max : Vector3 }.

Record IModel : Type := {
  data_units : TUnitType;
  data_derivatives : list IDerivative;
  data_transform : option Matrix4;
  data_boundingBox : option IBoundingBox
}.

(** Effects on collaborators, in the order they happen. *)
Inductive Event : Type :=
| EvLoad (d : Derivative) (lm : LoadingManager) (path : string)
| EvDerivativeDispose (d : Derivative)
| EvGeometryDispose (o : Object3D)
| EvEmit (name : string)
| EvSuperDispose.

(** static readonly updateEvent = "update" *)
Definition updateEvent : string := "update".

(** The fields of a [Model] ([units] ... [assetPath]), the part of the
    inherited [Object3D] component the methods touch ([matrix] ...
    [children]) and the objects reachable from it ([loaded], [nextOid],
    [journal]). *)
Record Model : Type := {
  units : TUnitType;
  boundingBox : option Box3;
  boxFrame : option Object3D;
  derivatives : list Derivative;
  activeDerivative : option Derivative;
  loadingManager : option LoadingManager;
  assetPath : string;
  matrix : Matrix4;
  matrixWorldNeedsUpdate : bool;
  position : Vector3;
  rotation : Vector3;
  children : list Object3D;
  loaded : gmap nat Loaded;
  nextOid : nat;
  journal : list Event
}.

Definition set_units v (m : Model) : Model :=
  {| units := v; boundingBox := m.(boundingBox); boxFrame := m.(boxFrame);
     derivatives := m.(derivatives); activeDerivative := m.(activeDerivative);
     loadingManager := m.(loadingManager); assetPath := m.(assetPath);
     matrix := m.(matrix); matrixWorldNeedsUpdate := m.(matrixWorldNeedsUpdate);
     position := m.(position); rotation := m.(rotation);
     children := m.(children); loaded := m.(loaded); nextOid := m.(nextOid);
     journal := m.(journal) |}.

Definition set_boundingBox v (m : Model) : Model :=
  {| units := m.(units); boundingBox := v; boxFrame := m.(boxFrame);
     derivatives := m.(derivatives); activeDerivative := m.(activeDerivative);
     loadingManager := m.(loadingManager); assetPath := m.(assetPath);
     matrix := m.(matrix); matrixWorldNeedsUpdate := m.(matrixWorldNeedsUpdate);
     position := m.(position); rotation := m.(rotation);
     children := m.(children); loaded := m.(loaded); nextOid := m.(nextOid);
     journal := m.(journal) |}.

Definition set_boxFrame v (m : Model) : Model :=
  {| units := m.(units); boundingBox := m.(boundingBox); boxFrame := v;
     derivatives := m.(derivatives); activeDerivative := m.(activeDerivative);
     loadingManager := m.(loadingManager); assetPath := m.(assetPath);
     matrix := m.(matrix); matrixWorldNeedsUpdate := m.(matrixWorldNeedsUpdate);
     position := m.(position); rotation := m.(rotation);
     children := m.(children); loaded := m.(loaded); nextOid := m.(nextOid);
     journal := m.(journal) |}.

Definition set_derivatives v (m : Model) : Model :=
  {| units := m.(units); boundingBox := m.(boundingBox); boxFrame := m.(boxFrame);
     derivatives := v; activeDerivative := m.(activeDerivative);
     loadingManager := m.(loadingManager); assetPath := m.(assetPath);
     matrix := m.(matrix); matrixWorldNeedsUpdate := m.(matrixWorldNeedsUpdate);
     position := m.(position); rotation := m.(rotation);
     children := m.(children); loaded := m.(loaded); nextOid := m.(nextOid);
     journal := m.(journal) |}.

Definition set_activeDerivative v (m : Model) : Model :=
  {| units := m.(units); boundingBox := m.(boundingBox); boxFrame := m.(boxFrame);
     derivatives := m.(derivatives); activeDerivative := v;
     loadingManager := m.(loadingManager); assetPath := m.(assetPath);
     matrix := m.(matrix); matrixWorldNeedsUpdate := m.(matrixWorldNeedsUpdate);
     position := m.(position); rotation := m.(rotation);
     children := m.(children); loaded := m.(loaded); nextOid := m.(nextOid);
     journal := m.(journal) |}.

Definition set_loadingManager v (m : Model) : Model :=
  {| units := m.(units); boundingBox := m.(boundingBox); boxFrame := m.(boxFrame);
     derivatives := m.(derivatives); activeDerivative := m.(activeDerivative);
     loadingManager := v; assetPath := m.(assetPath);
     matrix := m.(matrix); matrixWorldNeedsUpdate := m.(matrixWorldNeedsUpdate);
     position := m.(position); rotation := m.(rotation);
     children := m.(children); loaded := m.(loaded); nextOid := m.(nextOid);
     journal := m.(journal) |}.

Definition set_assetPath v (m : Model) : Model :=
  {| units := m.(units); boundingBox := m.(boundingBox); boxFrame := m.(boxFrame);
     derivatives := m.(derivatives); activeDerivative := m.(activeDerivative);
     loadingManager := m.(loadingManager); assetPath := v;
     matrix := m.(matrix); matrixWorldNeedsUpdate := m.(matrixWorldNeedsUpdate);
     position := m.(position); rotation := m.(rotation);
     children := m.(children); loaded := m.(loaded); nextOid := m.(nextOid);
     journal := m.(journal) |}.

Definition set_matrix v needsUpdate (m : Model) : Model :=
  {| units := m.(units); boundingBox := m.(boundingBox); boxFrame := m.(boxFrame);
     derivatives := m.(derivatives); activeDerivative := m.(activeDerivative);
     loadingManager := m.(loadingManager); assetPath := m.(assetPath);
     matrix := v; matrixWorldNeedsUpdate := needsUpdate;
     position := m.(position); rotation := m.(rotation);
     children := m.(children); loaded := m.(loaded); nextOid := m.(nextOid);
     journal := m.(journal) |}.

Definition set_pose pos rot (m : Model) : Model :=
  {| units := m.(units); boundingBox := m.(boundingBox); boxFrame := m.(boxFrame);
     derivatives := m.(derivatives); activeDerivative := m.(activeDerivative);
     loadingManager := m.(loadingManager); assetPath := m.(assetPath);
     matrix := m.(matrix); matrixWorldNeedsUpdate := m.(matrixWorldNeedsUpdate);
     position := pos; rotation := rot;
     children := m.(children); loaded := m.(loaded); nextOid := m.(nextOid);
     journal := m.(journal) |}.

Definition set_children v (m : Model) : Model :=
  {| units := m.(units); boundingBox := m.(boundingBox); boxFrame := m.(boxFrame);
     derivatives := m.(derivatives); activeDerivative := m.(activeDerivative);
     loadingManager := m.(loadingManager); assetPath := m.(assetPath);
     matrix := m.(matrix); matrixWorldNeedsUpdate := m.(matrixWorldNeedsUpdate);
     position := m.(position); rotation := m.(rotation);
     children := v; loaded := m.(loaded); nextOid := m.(nextOid);
     journal := m.(journal) |}.

Definition set_loaded v (m : Model) : Model :=
  {| units := m.(units); boundingBox := m.(boundingBox); boxFrame := m.(boxFrame);
     derivatives := m.(derivatives); activeDerivative := m.(activeDerivative);
     loadingManager := m.(loadingManager); assetPath := m.(assetPath);
     matrix := m.(matrix); matrixWorldNeedsUpdate := m.(matrixWorldNeedsUpdate);
     position := m.(position); rotation := m.(rotation);
     children := m.(children); loaded := v; nextOid := m.(nextOid);
     journal := m.(journal) |}.

Definition set_nextOid v (m : Model) : Model :=
  {| units := m.(units); boundingBox := m.(boundingBox); boxFrame := m.(boxFrame);
     derivatives := m.(derivatives); activeDerivative := m.(activeDerivative);
     loadingManager := m.(loadingManager); assetPath := m.(assetPath);
     matrix := m.(matrix); matrixWorldNeedsUpdate := m.(matrixWorldNeedsUpdate);
     position := m.(position); rotation := m.(rotation);
     children := m.(children); loaded := m.(loaded); nextOid := v;
     journal := m.(journal) |}.

Definition set_journal v (m : Model) : Model :=
  {| units := m.(units); boundingBox := m.(boundingBox); boxFrame := m.(boxFrame);
     derivatives := m.(derivatives); activeDerivative := m.(activeDerivative);
     loadingManager := m.(loadingManager); assetPath := m.(assetPath);
     matrix := m.(matrix); matrixWorldNeedsUpdate := m.(matrixWorldNeedsUpdate);
     position := m.(position); rotation := m.(rotation);
     children := m.(children); loaded := m.(loaded); nextOid := m.(nextOid);
     journal := v |}.

Local Open Scope method_scope.

(** The object as the field initialisers and [create()] leave it. *)
Definition identityMatrix : Matrix4 :=
  [1; 0; 0; 0;  0; 1; 0; 0;  0; 0; 1; 0;  0; 0; 0; 1]%float.

Definition zeroVector : Vector3 := {| x := 0%float; y := 0%float; z := 0%float |}.

Definition initial : Model :=
  {| units := "cm"; boundingBox := Some newBox3; boxFrame := None;
     derivatives := []; activeDerivative := None;
     loadingManager := None; assetPath := "";
     matrix := identityMatrix; matrixWorldNeedsUpdate := false;
     position := zeroVector; rotation := zeroVector;
     children := []; loaded := ∅; nextOid := O; journal := [] |}.

(** *** Collaborators of the component *)

Definition record (e : Event) : M Model unit :=
  modify (fun m => set_journal (m.(journal) ++ [e]) m).

(** this.emit(name) *)
Definition emit (name : string) : M Model unit := record (EvEmit name).

(** derivative.dispose(): releases the rendering resources of the
    derivative. *)
Definition derivativeDispose (d : Derivative) : M Model unit :=
  record (EvDerivativeDispose d).

(** this.addChild(o), that is [this.object3D.add(o)]: THREE detaches [o]
    from its parent and pushes it. *)
Definition addChild (o : Object3D) : M Model unit :=
  modify (fun m => set_children (filter (fun c => c <> o) m.(children) ++ [o]) m).

(** this.removeChild(o), that is [this.object3D.remove(o)]; a null or
    foreign object is ignored. *)
Definition removeChild (o : option Object3D) : M Model unit :=
  match o with
  | None => ret tt
  | Some c =>
      modify (fun m =>
        let index := indexOf c m.(children) in
        if index =? -1 then m
        else set_children (splice index 1 m.(children)) m)
  end.

(** A fresh object identity ([new Derivative], [new Box3Helper]). *)
Definition fresh : M Model nat :=
  fun m => (Normal m.(nextOid), set_nextOid (S m.(nextOid)) m).

(** new Derivative(usage, quality, assets) *)
Definition newDerivative (u : EDerivativeUsage) (q : EDerivativeQuality)
    (a : list Asset) : M Model Derivative :=
  let! id := fresh in
  ret {| oid := id; usage := u; quality := q; assets := a |}.

(** derivative.model and derivative.boundingBox *)
Definition derivativeModel (d : Derivative) (m : Model) : option Object3D :=
  match m.(loaded) !! d.(oid) with
  | Some l => l.(d_model)
  | None => None
  end.

Definition derivativeBoundingBox (d : Derivative) (m : Model) : option Box3 :=
  match m.(loaded) !! d.(oid) with
  | Some l => l.(d_boundingBox)
  | None => None
  end.

(** *** Methods *)

Definition getBoundingBox : M Model (option Box3) := gets boundingBox.

Definition addDerivative (derivative : Derivative) : M Model unit :=
  modify (fun m => set_derivatives (m.(derivatives) ++ [derivative]) m).

Definition removeDerivative (derivative : Derivative) : M Model unit :=
  modify (fun m =>
    let index := indexOf derivative m.(derivatives) in
    set_derivatives (splice index 1 m.(derivatives)) m).

Definition addWebModelDerivative (uri : string) (quality : EDerivativeQuality)
    : M Model unit :=
  let! derivative :=
    newDerivative Web quality
      [{| ModelTs.uri := uri; assetType := AssetModel; mapType := None |}] in
  addDerivative derivative.

Definition addGeometryAndTextureDerivative (geoUri textureUri : string)
    (quality : EDerivativeQuality) : M Model unit :=
  let geo := {| uri := geoUri; assetType := AssetGeometry; mapType := None |} in
  let tex := {| uri := textureUri; assetType := AssetImage; mapType := Some MapColor |} in
  let! derivative :=
    newDerivative Web quality
      (if bool_decide (textureUri = "") then [geo] else [geo; tex]) in
  addDerivative derivative.

Definition setLoadingManager (lm : LoadingManager) : M Model unit :=
  modify (set_loadingManager (Some lm)).

Definition setPath (path : string) : M Model unit :=
  modify (set_assetPath path).

Definition findDerivative (quality : EDerivativeQuality)
    (usage : option EDerivativeUsage) : M Model (option Derivative) :=
  let usage := usageOrWeb usage in
  let! ds := gets derivatives in
  ret (findIn ds quality usage).

(** selectDerivative(quality, usage?).  [level i] is
    [this.findDerivative(_qualityLevels[i], usage)]; the two counted loops
    run from [qualityIndex + 1] up to the last level and from
    [qualityIndex - 1] down to 0.  The text of the error (which names the
    quality) is shortened. *)
Definition selectDerivative (quality : EDerivativeQuality)
    (usage : option EDerivativeUsage) : M Model (option Derivative) :=
  let usage := usageOrWeb usage in
  let qualityIndex := indexOf quality _qualityLevels in
  if qualityIndex <? 0 then
    throw (MkError "derivative quality not supported")
  else
    let! derivative := findDerivative quality (Some usage) in
    match derivative with
    | Some d => ret (Some d)
    | None =>
        let! ds := gets derivatives in
        let level i :=
          match at_index _qualityLevels i with
          | Some q => findIn ds q usage
          | None => None
          end in
        let n := Z.of_nat (length _qualityLevels) in
        match for_up (Z.to_nat (n - (qualityIndex + 1))) (qualityIndex + 1) level with
        | Some d => ret (Some d)
        | None =>
            match for_down (Z.to_nat qualityIndex) (qualityIndex - 1) level with
            | Some d => ret (Some d)
            | None => ret None
            end
        end
    end.

(** dispose() *)
Definition dispose : M Model unit :=
  let! ds := gets derivatives in
  forEach ds (fun derivative => derivativeDispose derivative) ;;
  modify (set_activeDerivative None) ;;
  record EvSuperDispose.

Section Collaborators.

(** [derivative.load(loadingManager, assetPath)]: how the loading
    collaborator settles the load of a derivative. *)
Variable derivativeLoad : LoadingManager -> string -> Derivative -> LoadOutcome.

(** [matrix.decompose] followed by the conversion to ZYX Euler angles in
    degrees: position and rotation of a matrix. *)
Variable decompose : Matrix4 -> Vector3 * Vector3.

Definition updatePropsFromMatrix : M Model unit :=
  modify (fun m =>
    let (pos, rot) := decompose m.(matrix) in set_pose pos rot m).

Definition fromData (modelData : IModel) : M Model unit :=
  modify (set_units modelData.(data_units)) ;;
  let! ds := gets derivatives in
  (if (0 <? length ds)%nat then
     throw (MkError "existing derivatives; failed to inflate from modelData")
   else ret tt) ;;
  forEach modelData.(data_derivatives) (fun derivativeData =>
    let usage := derivativeData.(data_usage) in
    let quality := derivativeData.(data_quality) in
    let! d := newDerivative usage quality derivativeData.(data_assets) in
    addDerivative d) ;;
  match modelData.(data_transform) with
  | Some t => modify (set_matrix t true) ;; updatePropsFromMatrix
  | None => ret tt
  end ;;
  match modelData.(data_boundingBox) with
  | Some bb =>
      let! box := gets boundingBox in
      match box with
      | Some _ =>
          modify (set_boundingBox
                    (Some {| min := bb.(data_min); max := bb.(data_max) |}))
      | None => throw (TypeError "this.boundingBox is null")
      end ;;
      let! frame := fresh in
      modify (set_boxFrame (Some frame)) ;;
      addChild frame ;;
      emit updateEvent
  | None => ret tt
  end.

(** The callback [loadDerivative] attaches to the load with [.then]. *)
Definition onLoaded (derivative : Derivative) : M Model unit :=
  let! model := gets (derivativeModel derivative) in
  match model with
  | None => ret tt
  | Some model =>
      let! frame := gets boxFrame in
      match frame with
      | Some f => removeChild (Some f) ;; record (EvGeometryDispose f)
      | None => ret tt
      end ;;
      let! active := gets activeDerivative in
      match active with
      | Some a =>
          let! activeModel := gets (derivativeModel a) in
          removeChild activeModel ;; derivativeDispose a
      | None => ret tt
      end ;;
      let! box := gets boundingBox in
      let! bb := gets (derivativeBoundingBox derivative) in
      match box, bb with
      | None, Some b => modify (set_boundingBox (Some (clone b)))
      | _, _ => ret tt
      end ;;
      modify (set_activeDerivative (Some derivative)) ;;
      addChild model ;;
      emit updateEvent ;;
      match bb with
      | Some _ => ret tt
      | None => throw (TypeError "derivative.boundingBox is null")
      end
  end.

(** [p.then(cb)] for a chain run to settlement: [cb] runs if [p] is
    resolved, and an error thrown by [cb] rejects the result. *)
Definition andThen {A B} (p : Promise A) (cb : A -> M Model (Promise B))
    : M Model (Promise B) :=
  match p with
  | Rejected e => ret (Rejected e)
  | Resolved a =>
      fun m =>
        match cb a m with
        | (Normal q, m') => (Normal q, m')
        | (Throw e, m') => (Normal (Rejected e), m')
        end
  end.

Definition loadDerivative (derivative : Derivative) : M Model (Promise unit) :=
  let! lm := gets loadingManager in
  match lm with
  | None => throw (MkError "can't load derivative, loading manager not set")
  | Some lm =>
      let! path := gets assetPath in
      record (EvLoad derivative lm path) ;;
      match derivativeLoad lm path derivative with
      | LoadRejected e => ret (Rejected e)
      | LoadResolved l =>
          modify (fun m => set_loaded (<[derivative.(oid) := l]> m.(loaded)) m) ;;
          andThen (Resolved tt) (fun _ => onLoaded derivative ;; ret (Resolved tt))
      end
  end.

(** promise.then(() => this.loadDerivative(derivative)) *)
Definition thenLoadDerivative (promise : Promise unit) (derivative : Derivative)
    : M Model (Promise unit) :=
  andThen promise (fun _ => loadDerivative derivative).

(** The load sequence [autoLoad] builds before it starts loading. *)
Definition loadSequence (quality : EDerivativeQuality)
    : M Model (list Derivative) :=
  let sequence := [] in
  let! thumb := findDerivative Thumb None in
  let sequence :=
    match thumb with Some t => sequence ++ [t] | None => sequence end in
  let! second := selectDerivative quality None in
  let sequence :=
    match second with Some d => sequence ++ [d] | None => sequence end in
  ret sequence.

Definition autoLoad (quality : EDerivativeQuality) : M Model (Promise unit) :=
  let! sequence := loadSequence quality in
  if (length sequence =? 0)%nat then
    ret (Rejected (MkError "no suitable web-derivatives available"))
  else
    fold_left
      (fun (promise : M Model (Promise unit)) derivative =>
         let! p := promise in
         thenLoadDerivative p derivative)
      sequence (ret (Resolved tt)).

(** [matrix.compose] of the pose properties, which is what setting
    [object3D.position] and [object3D.rotation] and calling
    [updateMatrix()] leaves in [object3D.matrix]. *)
Variable compose : Vector3 -> Vector3 -> Matrix4.

(** update(), with the inputs it reads: [ins.quality.value],
    [ins.autoLoad.value] and whether the pose properties changed.  The
    rejection of [autoLoad] is caught and logged; an error [autoLoad]
    throws synchronously is not.  The load chain is run to settlement
    here; it and the pose update write to different fields. *)
Definition update (quality : EDerivativeQuality) (autoLoadValue : bool)
    (poseChanged : bool) : M Model bool :=
  let! active := gets activeDerivative in
  match active with
  | None =>
      if autoLoadValue then
        let! _ := autoLoad quality in ret tt
      else ret tt
  | Some _ => ret tt
  end ;;
  (if poseChanged then
     modify (fun m => set_matrix (compose m.(position) m.(rotation))
                        m.(matrixWorldNeedsUpdate) m)
   else ret tt) ;;
  ret true.

(** The public methods, as calls a client of the component can make. *)
Inductive Call : Type :=
| CallUpdate (quality : EDerivativeQuality) (autoLoadValue poseChanged : bool)
| CallDispose
| CallAddDerivative (d : Derivative)
| CallRemoveDerivative (d : Derivative)
| CallAddWebModelDerivative (uri : string) (quality : EDerivativeQuality)
| CallAddGeometryAndTextureDerivative (geoUri textureUri : string)
    (quality : EDerivativeQuality)
| CallSetLoadingManager (lm : LoadingManager)
| CallSetPath (path : string)
| CallFromData (modelData : IModel).

(** The state a call leaves, whether it returns or throws. *)
Definition perform (c : Call) (m : Model) : Model :=
  match c with
  | CallUpdate q a p => snd (update q a p m)
  | CallDispose => snd (dispose m)
  | CallAddDerivative d => snd (addDerivative d m)
  | CallRemoveDerivative d => snd (removeDerivative d m)
  | CallAddWebModelDerivative u q => snd (addWebModelDerivative u q m)
  | CallAddGeometryAndTextureDerivative g t q =>
      snd (addGeometryAndTextureDerivative g t q m)
  | CallSetLoadingManager lm => snd (setLoadingManager lm m)
  | CallSetPath path => snd (setPath path m)
  | CallFromData data => snd (fromData data m)
  end.

(** The models a client can bring about, starting from a new one. *)
Inductive Reachable : Model -> Prop :=
| reach_initial : Reachable initial
| reach_call c m : Reachable m -> Reachable (perform c m).

End Collaborators.

(** The derivatives whose [load] was called, in call order. *)
Definition loads (j : list Event) : list Derivative :=
  omap (fun e => match e with EvLoad d _ _ => Some d | _ => None end) j.

#[global] Instance Event_eq_dec : EqDecision Event.
Proof. solve_decision. Defined.

(** [preserves P c]: the state [c] leaves satisfies [P] if the state it
    started from does, whether [c] returns or throws. *)
Definition preserves {A} (P : Model -> Prop) (c : M Model A) : Prop :=
  forall m, P m -> P (snd (c m)).

(** [this.boundingBox] holds a [Box3] object. *)
Definition boxed (m : Model) : Prop := is_Some m.(boundingBox).

End ModelTs.

(** * CVDocument *)

Module CVDocumentTs.

Local Open Scope method_scope.

(** Identity of a graph object ([this.innerGraph], [node.graph]). *)
Definition GraphId : Type := nat.

(** The two node classes the component distinguishes with [instanceof]. *)
Inductive NodeClass : Type := NVScene | NVNode.

#[global] Instance NodeClass_eq_dec : EqDecision NodeClass.
Proof. solve_decision. Defined.

(** A node object as a caller hands it in: the graph it belongs to, its
    identity in that graph, and its class. *)
Record NodeRef : Type := {
  graph : GraphId;
  node : nat;
  class : NodeClass
}.

(** const quality?: EDerivativeQuality | string *)
Definition Quality : Type := (ModelTs.EDerivativeQuality + string)%type.

(** Modelled from the spec: [NVNode] and its model component are not among
    the sources.  "Create a new node under a given parent, attach a model
    capability, and register one derivative referencing the supplied asset
    path(s) at the requested quality": a registered derivative is the list
    of asset paths with the requested quality. *)
Record ModelAsset : Type := {
  paths : list string;
  requested : option Quality
}.

Record NodeData : Type := {
  nodeClass : NodeClass;
  parent : option nat;
  children : list nat;
  model : option (list ModelAsset);
  imported : option nat
}.

(** Modelled from the spec: the document schema ([common/types/document]
    is not among the sources): "an asset-metadata block, an ordered
    sequence of scenes, and an index of the active scene.  Scenes contain
    ordered node indices; nodes contain [...] child node indices". *)
Record IAsset : Type := {
  type : string;
  version : string;
  generator : string;
  copyright : string
}.

Record IScene : Type := { scene_nodes : list nat }.
Record INode : Type := { node_name : string; node_children : list nat }.

Record IDocument : Type := {
  asset : IAsset;
  scene : nat;
  scenes : list IScene;
  nodes : list INode
}.

(** The component: its inner graph with the live nodes, the root scene
    node the constructor creates, the [Asset.Path] output, its name, and
    the nodes disposed so far. *)
Record CVDocument : Type := {
  innerGraph : GraphId;
  live : gmap nat NodeData;
  nextNode : nat;
  root : nat;
  assetPath : string;
  name : string;
  disposed : list nat
}.

Definition set_live v (s : CVDocument) : CVDocument :=
  {| innerGraph := s.(innerGraph); live := v; nextNode := s.(nextNode);
     root := s.(root); assetPath := s.(assetPath); name := s.(name);
     disposed := s.(disposed) |}.

Definition set_nextNode v (s : CVDocument) : CVDocument :=
  {| innerGraph := s.(innerGraph); live := s.(live); nextNode := v;
     root := s.(root); assetPath := s.(assetPath); name := s.(name);
     disposed := s.(disposed) |}.

Definition set_assetPath v (s : CVDocument) : CVDocument :=
  {| innerGraph := s.(innerGraph); live := s.(live); nextNode := s.(nextNode);
     root := s.(root); assetPath := v; name := s.(name);
     disposed := s.(disposed) |}.

Definition set_name v (s : CVDocument) : CVDocument :=
  {| innerGraph := s.(innerGraph); live := s.(live); nextNode := s.(nextNode);
     root := s.(root); assetPath := s.(assetPath); name := v;
     disposed := s.(disposed) |}.

Definition set_disposed v (s : CVDocument) : CVDocument :=
  {| innerGraph := s.(innerGraph); live := s.(live); nextNode := s.(nextNode);
     root := s.(root); assetPath := s.(assetPath); name := s.(name);
     disposed := v |}.

Definition set_children v (n : NodeData) : NodeData :=
  {| nodeClass := n.(nodeClass); parent := n.(parent); children := v;
     model := n.(model); imported := n.(imported) |}.

Definition set_parent v (n : NodeData) : NodeData :=
  {| nodeClass := n.(nodeClass); parent := v; children := n.(children);
     model := n.(model); imported := n.(imported) |}.

Definition set_model v (n : NodeData) : NodeData :=
  {| nodeClass := n.(nodeClass); parent := n.(parent); children := n.(children);
     model := v; imported := n.(imported) |}.

(** static readonly mimeType / version *)
Definition mimeType : string := "application/si-dpo-3d.document+json".
Definition version_ : string := "1.0".

(** *** The graph library, as the component uses it *)

(** this.innerGraph.createCustomNode(cls): a new node of the inner graph. *)
Definition createCustomNode (cls : NodeClass) : M CVDocument NodeRef :=
  fun s =>
    let id := s.(nextNode) in
    let data := {| nodeClass := cls; parent := None; children := [];
                   model := None; imported := None |} in
    (Normal {| graph := s.(innerGraph); node := id; class := cls |},
     set_nextNode (S id) (set_live (<[id := data]> s.(live)) s)).

(** p.transform.addChild(c.transform) *)
Definition addChild (p c : NodeRef) : M CVDocument unit :=
  modify (fun s =>
    set_live
      (alter (fun n => set_children (n.(children) ++ [c.(node)]) n) p.(node)
         (alter (set_parent (Some p.(node))) c.(node) s.(live))) s).

(** node.dispose(): disposes the subtree below the node, detaches the node
    from its parent and removes it from the graph.  [fuel] bounds the depth
    of the subtree. *)
Fixpoint disposeNode (fuel : nat) (id : nat) (s : CVDocument) : CVDocument :=
  match fuel with
  | O => s
  | S fuel' =>
      match s.(live) !! id with
      | None => s
      | Some n =>
          let s1 :=
            fold_left (fun acc c => disposeNode fuel' c acc) n.(children) s in
          let detached :=
            match n.(parent) with
            | Some p =>
                alter (fun pn => set_children (filter (fun c => c <> id) pn.(children)) pn)
                  p s1.(live)
            | None => s1.(live)
            end in
          set_disposed (s1.(disposed) ++ [id]) (set_live (delete id detached) s1)
      end
  end.

(** this.root: the scene node the constructor created. *)
Definition rootRef (s : CVDocument) : NodeRef :=
  {| graph := s.(innerGraph); node := s.(root); class := NVScene |}.

(** modelNode.createModel() *)
Definition createModel (n : NodeRef) : M CVDocument unit :=
  modify (fun s => set_live (alter (set_model (Some [])) n.(node) s.(live)) s).

(** The registration behind [model.derivatives.createModelAsset] and
    [createMeshAsset]; without a model component the receiver is
    undefined. *)
Definition createAsset (n : NodeRef) (a : ModelAsset) : M CVDocument unit :=
  let! data := gets (fun s => s.(live) !! n.(node)) in
  match data with
  | Some {| model := Some ds |} =>
      modify (fun s =>
        set_live (alter (set_model (Some (ds ++ [a]))) n.(node) s.(live)) s)
  | _ => throw (TypeError "model is undefined")
  end.

Definition createModelAsset (n : NodeRef) (assetPath : string)
    (quality : option Quality) : M CVDocument unit :=
  createAsset n {| paths := [assetPath]; requested := quality |}.

Definition createMeshAsset (n : NodeRef) (geoPath : string)
    (colorMapPath occlusionMapPath normalMapPath : option string)
    (quality : option Quality) : M CVDocument unit :=
  createAsset n
    {| paths := geoPath :: omap id [colorMapPath; occlusionMapPath; normalMapPath];
       requested := quality |}.

(** mergeParent?: boolean | NVNode | NVScene *)
Inductive MergeParent : Type :=
| MergeUndefined
| MergeBoolean (b : bool)
| MergeObject (n : NodeRef).

(** JavaScript truthiness of the optional arguments. *)
Definition truthyMerge (mp : MergeParent) : bool :=
  match mp with
  | MergeUndefined => false
  | MergeBoolean b => b
  | MergeObject _ => true
  end.

Definition truthyString (s : option string) : option string :=
  match s with
  | Some "" => None
  | other => other
  end.

(** Scratch maps of the importer and the exporter. *)
Abbreviation PathToComponent := (gmap string nat).
Abbreviation ComponentToPath := (gmap nat string).

Section Collaborators.

(** CVDocument.validator.validate(documentData) *)
Variable validate : IDocument -> bool.

(** this.isEmpty(), inherited from the graph component. *)
Variable isEmpty : CVDocument -> bool.

(** NVScene.fromDocument(document, sceneIndex, pathMap) and
    NVNode.fromDocument(document, nodeIndex, pathMap), called on the node
    given first; both may write to the path map. *)
Variable sceneFromDocument :
  NodeRef -> IDocument -> nat -> PathToComponent -> M CVDocument PathToComponent.
Variable nodeFromDocument :
  NodeRef -> IDocument -> nat -> PathToComponent -> M CVDocument PathToComponent.

(** this.getMainComponent(CVAssetReader).getAssetName(assetPath) *)
Variable getAssetName : string -> string.

(** The filter type INodeComponents and NVScene.toDocument(document,
    pathMap, components) on the root: the document it leaves and the
    scene index it returns. *)
Variable INodeComponents : Type.
Variable rootToDocument :
  CVDocument -> IDocument -> ComponentToPath -> option INodeComponents ->
  IDocument * nat.

Definition clearNodeTree : M CVDocument unit :=
  let! r := gets (fun s => s.(live) !! s.(root)) in
  match r with
  | None => throw (TypeError "this.root is undefined")
  | Some r =>
      forEach r.(children) (fun child =>
        modify (fun s => disposeNode (S (size s.(live))) child s))
  end.

Definition openDocument (documentData : IDocument)
    (assetPath : option string) (mergeParent : MergeParent)
    : M CVDocument unit :=
  (if negb (validate documentData) then
     throw (MkError "document schema validation failed")
   else ret tt) ;;
  (if negb (truthyMerge mergeParent) then clearNodeTree else ret tt) ;;
  let! root := gets rootRef in
  let parent :=
    match mergeParent with
    | MergeObject n => n
    | _ => root
    end in
  let! g := gets innerGraph in
  (if bool_decide (parent.(graph) <> g) then
     throw (MkError "invalid parent node")
   else ret tt) ;;
  let pathMap : PathToComponent := ∅ in
  match parent.(class) with
  | NVScene =>
      let! _ := sceneFromDocument parent documentData documentData.(scene) pathMap in
      ret tt
  | NVNode =>
      match documentData.(scenes) !! documentData.(scene) with
      | None => throw (TypeError "scene is undefined")
      | Some sc =>
          let rootIndices := sc.(scene_nodes) in
          let! _ :=
            fold_left
              (fun (acc : M CVDocument PathToComponent) rootIndex =>
                 let! pm := acc in
                 let! rootNode := createCustomNode NVNode in
                 addChild parent rootNode ;;
                 nodeFromDocument rootNode documentData rootIndex pm)
              rootIndices (ret pathMap) in
          ret tt
      end
  end ;;
  match truthyString assetPath with
  | Some p =>
      modify (set_assetPath p) ;;
      modify (set_name (getAssetName p))
  | None => ret tt
  end.

Definition appendModel (assetPath : string) (quality : option Quality)
    (parent : option NodeRef) : M CVDocument unit :=
  let! g := gets innerGraph in
  match parent with
  | Some p =>
      if bool_decide (p.(graph) <> g) then throw (MkError "invalid parent node")
      else ret tt
  | None => ret tt
  end ;;
  let! empty := gets isEmpty in
  (if empty then throw (MkError "empty document, can't append model")
   else ret tt) ;;
  let! root := gets rootRef in
  let parent := match parent with Some p => p | None => root end in
  let! modelNode := createCustomNode NVNode in
  addChild parent modelNode ;;
  createModel modelNode ;;
  createModelAsset modelNode assetPath quality.

Definition appendGeometry (geoPath : string)
    (colorMapPath occlusionMapPath normalMapPath : option string)
    (quality : option Quality) (parent : option NodeRef)
    : M CVDocument unit :=
  let! g := gets innerGraph in
  match parent with
  | Some p =>
      if bool_decide (p.(graph) <> g) then throw (MkError "invalid parent node")
      else ret tt
  | None => ret tt
  end ;;
  let! empty := gets isEmpty in
  (if empty then throw (MkError "empty document, can't append geometry")
   else ret tt) ;;
  let! root := gets rootRef in
  let parent := match parent with Some p => p | None => root end in
  let! modelNode := createCustomNode NVNode in
  addChild parent modelNode ;;
  createModel modelNode ;;
  createMeshAsset modelNode geoPath colorMapPath occlusionMapPath
    normalMapPath quality.

Definition deflateDocument (components : option INodeComponents)
    : M CVDocument IDocument :=
  let! empty := gets isEmpty in
  if (empty : bool) then throw (MkError "empty document, can't serialize")
  else
    let document :=
      {| asset :=
           {| type := mimeType;
              version := version_;
              generator := "Voyager";
              copyright := "(c) Smithsonian Institution. All rights reserved." |};
         scene := 0;
         scenes := [];
         nodes := [] |} in
    let pathMap : ComponentToPath := ∅ in
    let! s := gets id in
    let (document, sceneIndex) := rootToDocument s document pathMap components in
    ret {| asset := document.(asset); scene := sceneIndex;
           scenes := document.(scenes); nodes := document.(nodes) |}.

End Collaborators.

End CVDocumentTs.

(** * Reference definitions, following the words of the specification *)

Module ModelSpec.

Import ModelTs.

(** "a discrete quality level (thumb/low/medium/high/highest)": the order
    of the supported levels. *)
Definition rank (q : EDerivativeQuality) : option nat :=
  match q with
  | Thumb => Some 0%nat
  | Low => Some 1%nat
  | Medium => Some 2%nat
  | High => Some 3%nat
  | Highest => Some 4%nat
  | OtherQuality _ => None
  end.

Definition supported (q : EDerivativeQuality) : Prop := is_Some (rank q).

(** [below a b]: level [a] is strictly lower than level [b]. *)
Definition below (a b : EDerivativeQuality) : bool :=
  match rank a, rank b with
  | Some i, Some j => (i <? j)%nat
  | _, _ => false
  end.

(** "the derivative exactly matching (quality, usage) if present": the
    first one in list order. *)
Definition exactMatch (ds : list Derivative) (q : EDerivativeQuality)
    (u : EDerivativeUsage) : option Derivative :=
  snd <$> list_find (fun d => d.(usage) = u /\ d.(quality) = q) ds.

(** "strictly higher qualities in ascending order" and "strictly lower
    qualities in descending order". *)
Definition higherAscending (q : EDerivativeQuality) : list EDerivativeQuality :=
  List.filter (below q) [Thumb; Low; Medium; High; Highest].

Definition lowerDescending (q : EDerivativeQuality) : list EDerivativeQuality :=
  reverse (List.filter (fun q' => below q' q) [Thumb; Low; Medium; High; Highest]).

(** "returns the first match" over a list of candidate levels. *)
Definition firstMatch (ds : list Derivative) (u : EDerivativeUsage)
    (levels : list EDerivativeQuality) : option Derivative :=
  head (omap (fun q' => exactMatch ds q' u) levels).

Definition selectDerivative_spec (ds : list Derivative)
    (q : EDerivativeQuality) (u : EDerivativeUsage) : option Derivative :=
  match exactMatch ds q u with
  | Some d => Some d
  | None =>
      match firstMatch ds u (higherAscending q) with
      | Some d => Some d
      | None => firstMatch ds u (lowerDescending q)
      end
  end.

End ModelSpec.

(** * Concrete objects used to exercise the statements *)

Module Examples.

Import ModelTs.

Definition glb (name : string) : list Asset :=
  [{| uri := name; assetType := AssetModel; mapType := None |}].

Definition dThumb : Derivative :=
  {| oid := 10; usage := Web; quality := Thumb; assets := glb "thumb.glb" |}.
Definition dLow : Derivative :=
  {| oid := 11; usage := Web; quality := Low; assets := glb "low.glb" |}.
Definition dHigh : Derivative :=
  {| oid := 12; usage := Web; quality := High; assets := glb "high.glb" |}.
Definition dStray : Derivative :=
  {| oid := 13; usage := Web; quality := Medium; assets := glb "stray.glb" |}.

Definition unitBox : Box3 :=
  {| min := {| x := 0%float; y := 0%float; z := 0%float |};
     max := {| x := 1%float; y := 1%float; z := 1%float |} |}.

(** A loader that resolves every load with a model and a bounding box. *)
Definition loadAll : LoadingManager -> string -> Derivative -> LoadOutcome :=
  fun _ _ d =>
    LoadResolved {| d_model := Some (100 + d.(oid))%nat;
                    d_boundingBox := Some unitBox |}.

(** A loader that rejects the thumbnail and resolves everything else. *)
Definition loadNoThumb : LoadingManager -> string -> Derivative -> LoadOutcome :=
  fun lm path d =>
    if bool_decide (d.(quality) = Thumb)
    then LoadRejected (MkError "404")
    else loadAll lm path d.

Definition noPose : Matrix4 -> Vector3 * Vector3 :=
  fun _ => (zeroVector, zeroVector).

(** Models built through the public methods. *)
Definition after {A} (c : M Model A) (m : Model) : Model := snd (c m).

Definition mLowHigh : Model :=
  after (addDerivative dHigh) (after (addDerivative dLow) initial).

Definition mThumbHigh : Model :=
  after (addDerivative dHigh) (after (addDerivative dThumb) initial).

Definition mThumbHighReady : Model :=
  after (setLoadingManager 7%nat) mThumbHigh.

Definition mHighReady : Model :=
  after (setLoadingManager 7%nat) (after (addDerivative dHigh) initial).

Definition idPose : Vector3 -> Vector3 -> Matrix4 :=
  fun _ _ => identityMatrix.

(** A model whose High derivative was loaded by an update tick and then
    removed from the derivative list while still active. *)
Definition mActive : Model :=
  after (update loadAll idPose High true false) mHighReady.

Definition mOrphan : Model :=
  after (removeDerivative dHigh) mActive.

Definition someData : IModel :=
  {| data_units := "mm";
     data_derivatives :=
       [{| data_usage := Web; data_quality := Medium; data_assets := glb "m.glb" |}];
     data_transform := None;
     data_boundingBox := None |}.

End Examples.

Module DocExamples.

Import CVDocumentTs.
Local Open Scope nat_scope.

Definition sceneNode (kids : list nat) : NodeData :=
  {| nodeClass := NVScene; parent := None; children := kids;
     model := None; imported := None |}.

Definition plainNode (p : nat) : NodeData :=
  {| nodeClass := NVNode; parent := Some p; children := [];
     model := None; imported := None |}.

(** The document as its constructor leaves it: graph 1 with the root scene
    node 0 and nothing below it. *)
Definition newDocument : CVDocument :=
  {| innerGraph := 1; live := {[ 0%nat := sceneNode [] ]}; nextNode := 1;
     root := 0; assetPath := ""; name := ""; disposed := [] |}.

(** A document with one node below the root. *)
Definition populated : CVDocument :=
  {| innerGraph := 1;
     live := <[ 1%nat := plainNode 0 ]> {[ 0%nat := sceneNode [1%nat] ]};
     nextNode := 2; root := 0; assetPath := "old/document.json";
     name := "old"; disposed := [] |}.

(** "the current graph root has no content" *)
Definition rootHasNoContent (s : CVDocument) : bool :=
  match s.(live) !! s.(root) with
  | Some r => bool_decide (r.(children) = [])
  | None => true
  end.

(** A validator that insists on the document mime type. *)
Definition validateType (d : IDocument) : bool :=
  bool_decide (d.(asset).(type) = mimeType).

Definition plainText : IDocument :=
  {| asset := {| type := "text/plain"; version := "1.0";
                 generator := "none"; copyright := "" |};
     scene := 0; scenes := [{| scene_nodes := [] |}]; nodes := [] |}.

Definition twoRoots : IDocument :=
  {| asset := {| type := mimeType; version := "1.0";
                 generator := "Voyager"; copyright := "" |};
     scene := 0; scenes := [{| scene_nodes := [0; 1] |}]; nodes := [] |}.

(** Importers that only mark the node they are called on. *)
Definition markImported (n : NodeRef) (_ : IDocument) (index : nat)
    (pm : PathToComponent) : M CVDocument PathToComponent :=
  bind
    (modify (fun s =>
       set_live
         (alter (fun d => {| nodeClass := d.(nodeClass); parent := d.(parent);
                             children := d.(children); model := d.(model);
                             imported := Some index |})
            n.(node) s.(live)) s))
    (fun _ => ret pm).

Definition fileName (path : string) : string := path.

(** A node of another graph. *)
Definition foreignNode : NodeRef := {| graph := 2; node := 0; class := NVNode |}.

(** A scene exporter that appends one scene listing the children of the
    root. *)
Definition exportScene (s : CVDocument) (d : IDocument)
    (_ : ComponentToPath) (_ : option unit) : IDocument * nat :=
  ({| asset := d.(asset); scene := d.(scene);
      scenes := d.(scenes)
                ++ [{| scene_nodes :=
                         match s.(live) !! s.(root) with
                         | Some r => r.(children)
                         | None => []
                         end |}];
      nodes := d.(nodes) |},
   length d.(scenes)).

End DocExamples.

(** * Further methods of Model.ts and CVDocument *)

Module ModelMore.

Import ModelTs.
Local Open Scope method_scope.

(** What a derivative looks like from outside: usage, quality, assets. *)
Definition descriptor (d : Derivative)
    : EDerivativeUsage * EDerivativeQuality * list Asset :=
  (d.(usage), d.(quality), d.(assets)).

Definition dataDescriptor (x : IDerivative)
    : EDerivativeUsage * EDerivativeQuality * list Asset :=
  (x.(data_usage), x.(data_quality), x.(data_assets)).

(** The child list [removeChild(c)] leaves. *)
Definition without (c : Object3D) (l : list Object3D) : list Object3D :=
  if indexOf c l =? -1 then l else splice (indexOf c l) 1 l.

(** How often the geometry of a box frame was disposed. *)
Definition geometryDisposals (f : Object3D) (j : list Event) : nat :=
  length (filter (fun e => e = EvGeometryDispose f) j).

Section Collaborators.

(** derivative.toData() *)
Variable derivativeToData : Derivative -> IDerivative.

(** threeMath.isMatrix4Identity(matrix) *)
Variable isMatrix4Identity : Matrix4 -> bool.

(** toData(): units and derivatives always, the bounding box if the field
    is set, the transform unless the matrix is the identity. *)
Definition toData : M Model IModel :=
  let! m := gets id in
  let data :=
    {| data_units := m.(units);
       data_derivatives := map derivativeToData m.(derivatives);
       data_transform := None;
       data_boundingBox := None |} in
  let data :=
    match m.(boundingBox) with
    | Some b =>
        {| data_units := data.(data_units);
           data_derivatives := data.(data_derivatives);
           data_transform := data.(data_transform);
           data_boundingBox := Some {| data_min := b.(min); data_max := b.(max) |} |}
    | None => data
    end in
  let data :=
    if negb (isMatrix4Identity m.(matrix)) then
      {| data_units := data.(data_units);
         data_derivatives := data.(data_derivatives);
         data_transform := Some m.(matrix);
         data_boundingBox := data.(data_boundingBox) |}
    else data in
  ret data.

End Collaborators.

End ModelMore.

Module CVDocumentMore.

Import CVDocumentTs.
Local Open Scope method_scope.

(** [name.indexOf("document.json")] and [name.substr(0, index)] of the
    getter [assetBaseName]. *)
Definition baseNameOf (name : string) : string :=
  match String.index 0 "document.json" name with
  | Some index => String.substring 0 index name
  | None => name
  end.

(** get assetBaseName() *)
Definition assetBaseName : M CVDocument string :=
  let! name := gets assetPath in
  ret (baseNameOf name).

(** The character "/". *)
Definition slash : Ascii.ascii := Ascii.ascii_of_nat 47.

(** [s.split(sep)] for a separator of one character: the pieces between
    the separators, in order; never an empty array. *)
Fixpoint split (sep : Ascii.ascii) (s : string) : list string :=
  match s with
  | EmptyString => [EmptyString]
  | String c rest =>
      if Ascii.eqb c sep then EmptyString :: split sep rest
      else
        match split sep rest with
        | piece :: pieces => String c piece :: pieces
        | [] => [String c EmptyString]
        end
  end.

(** [outs.assetPath.value.split("/").pop() || "voyager-document.json"] *)
Definition downloadFileName (assetPath : string) : string :=
  match last (split slash assetPath) with
  | Some EmptyString | None => "voyager-document.json"
  | Some piece => piece
  end.

Section Collaborators.

Variable isEmpty : CVDocument -> bool.
Variable INodeComponents : Type.
Variable rootToDocument :
  CVDocument -> IDocument -> ComponentToPath -> option INodeComponents ->
  IDocument * nat.

(** update(context), with the three events it reads, after the update of
    the graph component it extends.  What reaches the console is dropped;
    the call of [download.json(document, fileName)] is
    returned beside the method's own result [true], since the component
    has no field that would hold it. *)
Definition update (dumpJson dumpTree download : bool)
    : M CVDocument (bool * option (IDocument * string)) :=
  (if dumpJson then
     let! json := deflateDocument isEmpty INodeComponents rootToDocument None in
     ret tt
   else ret tt) ;;
  let! downloaded :=
    (if download then
       let! path := gets assetPath in
       let fileName := downloadFileName path in
       let! document := deflateDocument isEmpty INodeComponents rootToDocument None in
       ret (Some (document, fileName))
     else ret None) in
  ret (true, downloaded).

End Collaborators.

End CVDocumentMore.

(** * CVCamera *)

Module CVCameraTs.

Local Open Scope method_scope.

(** EProjection of the scene library. *)
Inductive EProjection : Type := Perspective | Orthographic.

Definition number : Type := float.

(** The camera records of the document schema. *)
Record IPerspective : Type := { yfov : number; znear : number; zfar : number }.
Record IOrthographic : Type := { ymag : number; oznear : number; ozfar : number }.

Record ICamera : Type := {
  type : string;
  perspective : option IPerspective;
  orthographic : option IOrthographic
}.

(** The part of a document and of a node the camera reads and writes:
    [document.cameras] (which may be undefined) and [node.camera]; [rest]
    is everything else. *)
Record IDocument (Rest : Type) : Type := {
  cameras : option (list ICamera);
  rest : Rest
}.
Arguments cameras {Rest} _.
Arguments rest {Rest} _.

Record INode : Type := { camera : option nat }.

(** The setting properties of the component ([this.ins]). *)
Record Ins : Type := {
  projection : EProjection;
  fov : number;
  size : number;
  near : number;
  far : number
}.

(** fromDocument(document, node).  [node.camera] is an index or
    undefined, for which [isFinite] is false; reading a property of an
    undefined value is a TypeError; [ins.copyValues] writes the properties
    it is given and leaves the others. *)
Definition fromDocument {Rest} (document : IDocument Rest) (node : INode)
    : M Ins nat :=
  match node.(camera) with
  | None => throw (MkError "camera property missing in node")
  | Some index =>
      match document.(cameras) with
      | None => throw (TypeError "document.cameras is undefined")
      | Some cams =>
          match cams !! index with
          | None => throw (TypeError "data is undefined")
          | Some data =>
              (if String.eqb data.(type) "perspective" then
                 match data.(perspective) with
                 | None => throw (TypeError "data.perspective is undefined")
                 | Some p =>
                     modify (fun ins =>
                       {| projection := Perspective;
                          fov := p.(yfov);
                          size := ins.(size);
                          near := p.(znear);
                          far := p.(zfar) |})
                 end
               else
                 match data.(orthographic) with
                 | None => throw (TypeError "data.orthographic is undefined")
                 | Some o =>
                     modify (fun ins =>
                       {| projection := Orthographic;
                          fov := ins.(fov);
                          size := o.(ymag);
                          near := o.(oznear);
                          far := o.(ozfar) |})
                 end) ;;
              ret index
          end
      end
  end.

(** toDocument(document, node): the document it leaves and the index it
    returns.  [ins.projection.getValidatedValue()] is the projection the
    property holds. *)
Definition toDocument {Rest} (document : IDocument Rest) (node : INode)
    : M Ins (IDocument Rest * nat) :=
  let! ins := gets id in
  let data :=
    match ins.(projection) with
    | Perspective =>
        {| type := "perspective";
           perspective := Some {| yfov := ins.(fov); znear := ins.(near);
                                  zfar := ins.(far) |};
           orthographic := None |}
    | Orthographic =>
        {| type := "orthographic";
           perspective := None;
           orthographic := Some {| ymag := ins.(size); oznear := ins.(near);
                                   ozfar := ins.(far) |} |}
    end in
  let cams := match document.(cameras) with Some c => c | None => [] end in
  let cameraIndex := length cams in
  ret ({| cameras := Some (cams ++ [data]); rest := document.(rest) |},
       cameraIndex).

End CVCameraTs.

Module MoreExamples.

Import ModelTs.

Definition describe (d : Derivative) : IDerivative :=
  {| data_usage := d.(usage); data_quality := d.(quality);
     data_assets := d.(assets) |}.

Definition neverIdentity : Matrix4 -> bool := fun _ => false.

(** A loader whose loads resolve without a model. *)
Definition loadEmpty : LoadingManager -> string -> Derivative -> LoadOutcome :=
  fun _ _ _ => LoadResolved {| d_model := None; d_boundingBox := None |}.

(** A loader whose loads resolve with a model but without a bounding box. *)
Definition loadBare : LoadingManager -> string -> Derivative -> LoadOutcome :=
  fun _ _ d =>
    LoadResolved {| d_model := Some (100 + d.(oid))%nat; d_boundingBox := None |}.

Definition boxedData : IModel :=
  {| data_units := "mm";
     data_derivatives :=
       [{| data_usage := Web; data_quality := Medium;
           data_assets := Examples.glb "m.glb" |}];
     data_transform := None;
     data_boundingBox :=
       Some {| data_min := Examples.unitBox.(min);
               data_max := Examples.unitBox.(max) |} |}.

(** The derivative [fromData] creates first on a new model. *)
Definition dInflated : Derivative :=
  {| oid := 0; usage := Web; quality := Medium; assets := Examples.glb "m.glb" |}.

(** A model inflated from data with a bounding box (so with a box frame),
    ready to load. *)
Definition mFramed : Model :=
  Examples.after (setLoadingManager 7%nat)
    (Examples.after (fromData Examples.noPose boxedData) initial).

Definition mThumbReady : Model :=
  Examples.after (setLoadingManager 7%nat)
    (Examples.after (addDerivative Examples.dThumb) initial).

Definition wideAngle : CVCameraTs.Ins :=
  {| CVCameraTs.projection := CVCameraTs.Perspective;
     CVCameraTs.fov := 70%float; CVCameraTs.size := 5%float;
     CVCameraTs.near := 1%float; CVCameraTs.far := 100%float |}.

Definition otherCamera : CVCameraTs.Ins :=
  {| CVCameraTs.projection := CVCameraTs.Orthographic;
     CVCameraTs.fov := 52%float; CVCameraTs.size := 20%float;
     CVCameraTs.near := 2%float; CVCameraTs.far := 50%float |}.

Definition noCameras : CVCameraTs.IDocument unit :=
  {| CVCameraTs.cameras := None; CVCameraTs.rest := tt |}.

End MoreExamples.

(** * Properties of Model.ts *)

Module ModelFacts.

Import ModelTs ModelSpec.

(** ** findDerivative and selectDerivative *)

Lemma findIn_exactMatch (ds : list Derivative) q u :
  findIn ds q u = exactMatch ds q u.
Proof.
  unfold exactMatch.
  induction ds as [|d ds IH]; simpl; [reflexivity|].
  destruct (decide (usage d = u /\ quality d = q)) as [[Hu Hq]|Hn].
  - rewrite !bool_decide_eq_true_2 by assumption. reflexivity.
  - rewrite IH.
    destruct (bool_decide (usage d = u)) eqn:Eu;
      destruct (bool_decide (quality d = q)) eqn:Eq; simpl.
    + apply bool_decide_eq_true in Eu, Eq. tauto.
    + destruct (list_find _ ds) as [[i y]|]; reflexivity.
    + destruct (list_find _ ds) as [[i y]|]; reflexivity.
    + destruct (list_find _ ds) as [[i y]|]; reflexivity.
Qed.

(** The exact match is the first derivative of the list with that usage
    and quality. *)
Lemma exactMatch_first (ds : list Derivative) q u d :
  exactMatch ds q u = Some d <->
  exists i : nat,
    ds !! i = Some d /\ usage d = u /\ quality d = q /\
    forall (j : nat) y, ds !! j = Some y -> (j < i)%nat ->
                ~ (usage y = u /\ quality y = q).
Proof.
  unfold exactMatch. split.
  - destruct (list_find _ ds) as [[i y]|] eqn:E; simpl; [|discriminate].
    intros [= ->]. apply list_find_Some in E as (Hi & [Hu Hq] & Hfirst).
    exists i. auto.
  - intros (i & Hi & Hu & Hq & Hfirst).
    assert (list_find (fun d => usage d = u /\ quality d = q) ds = Some (i, d)) as ->.
    { apply list_find_Some. auto. }
    reflexivity.
Qed.

Lemma exactMatch_None (ds : list Derivative) q u :
  exactMatch ds q u = None <->
  forall d, d ∈ ds -> ~ (usage d = u /\ quality d = q).
Proof.
  unfold exactMatch. rewrite fmap_None, list_find_None, Forall_forall.
  reflexivity.
Qed.

(** The guard of [selectDerivative] accepts exactly the five levels. *)
Lemma supported_indexOf q :
  0 <= indexOf q _qualityLevels <-> supported q.
Proof.
  unfold supported. split.
  - intros H. destruct q; simpl; eauto.
    exfalso. vm_compute in H. apply H. reflexivity.
  - intros [n Hn]. destruct q; try discriminate; vm_compute; discriminate.
Qed.

Lemma selectDerivative_run q usage m :
  0 <= indexOf q _qualityLevels ->
  selectDerivative q usage m
  = (Normal (selectDerivative_spec m.(derivatives) q (usageOrWeb usage)), m).
Proof.
  intros Hq. apply supported_indexOf in Hq as [n Hn].
  unfold selectDerivative, selectDerivative_spec, firstMatch.
  destruct q; try discriminate; clear Hn; simpl;
    unfold bind, findDerivative, gets, ret, bind; simpl;
    rewrite <- !findIn_exactMatch.
  all: repeat match goal with
         | |- context [findIn ?ds ?q ?u] =>
             destruct (findIn ds q u); simpl; try reflexivity
         end.
Qed.

Lemma selectDerivative_unsupported n usage m :
  selectDerivative (OtherQuality n) usage m
  = (Throw (MkError "derivative quality not supported"), m).
Proof. reflexivity. Qed.

(** Nothing is selected only when no derivative of that usage sits at a
    supported level. *)
Lemma selectDerivative_spec_None ds q u :
  supported q ->
  selectDerivative_spec ds q u = None <->
  forall d, d ∈ ds -> usage d = u -> ~ supported (quality d).
Proof.
  intros [n Hn]. split.
  - intros Hnone d Hd Hu [k Hk].
    assert (exactMatch ds (quality d) u = None) as E.
    { unfold selectDerivative_spec, firstMatch in Hnone.
      destruct q; try discriminate; destruct (quality d); try discriminate;
        simpl in Hnone;
        repeat match type of Hnone with
          | context [exactMatch ?a ?b ?c] =>
              destruct (exactMatch a b c) eqn:?; simpl in Hnone; try discriminate
          end; reflexivity. }
    rewrite exactMatch_None in E. apply (E d Hd). auto.
  - intros Hall.
    assert (forall q', supported q' -> exactMatch ds q' u = None) as E.
    { intros q' Hq'. apply exactMatch_None. intros d Hd [Hu Hqd].
      apply (Hall d Hd Hu). rewrite Hqd. exact Hq'. }
    unfold selectDerivative_spec, firstMatch.
    destruct q; try discriminate; simpl;
      rewrite ?(E Thumb), ?(E Low), ?(E Medium), ?(E High), ?(E Highest);
      simpl; try reflexivity; unfold supported; simpl; eauto.
Qed.

(** With a usable High derivative and no Medium one, a request for Medium
    is answered with a High derivative. *)
Lemma selectDerivative_spec_medium_high ds u :
  (forall d, d ∈ ds -> quality d = Low \/ quality d = High) ->
  (exists d, d ∈ ds /\ quality d = High /\ usage d = u) ->
  exists d, selectDerivative_spec ds Medium u = Some d
            /\ d ∈ ds /\ quality d = High /\ usage d = u.
Proof.
  intros Honly (dh & Hin & Hq & Hu).
  unfold selectDerivative_spec, firstMatch.
  assert (exactMatch ds Medium u = None) as ->.
  { apply exactMatch_None. intros d Hd [_ Hm].
    destruct (Honly d Hd) as [E|E]; congruence. }
  simpl.
  destruct (exactMatch ds High u) as [d|] eqn:E.
  - simpl. exists d. apply exactMatch_first in E as (i & Hi & Hu' & Hq' & _).
    split; [reflexivity|]. split; [|auto].
    apply list_elem_of_lookup. eauto.
  - exfalso. rewrite exactMatch_None in E. apply (E dh Hin). auto.
Qed.

(** C1.  For a supported quality level, [selectDerivative] returns the
    exact (quality, usage) match if the list has one, otherwise the first
    match over the strictly higher levels in ascending order, otherwise the
    first match over the strictly lower levels in descending order,
    otherwise none; the model is left as it was.  In particular, when the
    derivatives sit only at Low and High, a request for Medium is answered
    with a High derivative. *)
Theorem selectDerivative_exact_higher_lower q usage m :
  0 <= indexOf q _qualityLevels ->
  selectDerivative q usage m
  = (Normal (selectDerivative_spec m.(derivatives) q (usageOrWeb usage)), m)
  /\ (selectDerivative_spec m.(derivatives) q (usageOrWeb usage) = None <->
      forall d, d ∈ m.(derivatives) -> ModelTs.usage d = usageOrWeb usage ->
                ~ supported (quality d))
  /\ (q = Medium ->
      (forall d, d ∈ m.(derivatives) -> quality d = Low \/ quality d = High) ->
      (exists d, d ∈ m.(derivatives) /\ quality d = High
                 /\ ModelTs.usage d = usageOrWeb usage) ->
      exists d, selectDerivative q usage m = (Normal (Some d), m)
                /\ d ∈ m.(derivatives) /\ quality d = High).
Proof.
  intros Hq. split; [|split].
  - apply selectDerivative_run, Hq.
  - apply selectDerivative_spec_None, supported_indexOf, Hq.
  - intros -> Honly Hhigh.
    destruct (selectDerivative_spec_medium_high _ _ Honly Hhigh)
      as (d & Hsel & Hin & Hqd & _).
    exists d. rewrite selectDerivative_run by exact Hq. rewrite Hsel. auto.
Qed.

Lemma selectDerivative_exact_higher_lower_witness :
  selectDerivative Medium None Examples.mLowHigh
  = (Normal (Some Examples.dHigh), Examples.mLowHigh).
Proof.
  destruct (selectDerivative_exact_higher_lower Medium None Examples.mLowHigh)
    as [H _].
  - vm_compute. discriminate.
  - rewrite H. reflexivity.
Defined.

(** ** removeDerivative *)

Lemma indexOf_from_absent {A} `{EqDecision A} (x : A) (l : list A) i :
  x ∉ l -> indexOf_from i x l = -1.
Proof.
  revert i. induction l as [|y l IH]; intros i Hx; simpl; [reflexivity|].
  apply not_elem_of_cons in Hx as [Hne Hx].
  destruct (decide (y = x)); [congruence|]. apply IH, Hx.
Qed.

Lemma indexOf_from_present {A} `{EqDecision A} (x : A) (l : list A) i :
  x ∈ l -> i <= indexOf_from i x l < i + Z.of_nat (length l).
Proof.
  revert i. induction l as [|y l IH]; intros i Hx; simpl.
  - inversion Hx.
  - destruct (decide (y = x)); [lia|].
    apply elem_of_cons in Hx as [->|Hx]; [congruence|].
    specialize (IH (i + 1) Hx). lia.
Qed.

Lemma splice_last {A} (l : list A) :
  l <> [] -> splice (-1) 1 l = take (length l - 1) l.
Proof.
  intros Hl. unfold splice.
  assert (0 < length l)%nat by (destruct l; simpl; [congruence|lia]).
  change (-1 <? 0) with true. cbv iota.
  replace (Z.max (Z.of_nat (length l) + -1) 0) with (Z.of_nat (length l) - 1) by lia.
  replace (Z.min (Z.max 1 0) (Z.of_nat (length l) - (Z.of_nat (length l) - 1)))
    with 1 by lia.
  replace (Z.to_nat (Z.of_nat (length l) - 1)) with (length l - 1)%nat by lia.
  replace (Z.to_nat (Z.of_nat (length l) - 1 + 1)) with (length l) by lia.
  rewrite drop_all, app_nil_r. reflexivity.
Qed.

(** C9.  Removing a derivative the list does not contain still removes
    one: [indexOf] yields -1 and [splice(-1, 1)] drops the last element
    of a non-empty list. *)
Theorem removeDerivative_absent_drops_last d m :
  m.(derivatives) <> [] ->
  d ∉ m.(derivatives) ->
  indexOf d m.(derivatives) = -1
  /\ removeDerivative d m
     = (Normal tt,
        set_derivatives (take (length m.(derivatives) - 1) m.(derivatives)) m)
  /\ (exists last,
        m.(derivatives)
        = (snd (removeDerivative d m)).(derivatives) ++ [last])
  /\ (length (snd (removeDerivative d m)).(derivatives) + 1
      = length m.(derivatives))%nat.
Proof.
  intros Hne Hd.
  assert (indexOf d (derivatives m) = -1) as Hidx
    by (apply indexOf_from_absent, Hd).
  assert (removeDerivative d m
          = (Normal tt,
             set_derivatives
               (take (length (derivatives m) - 1) (derivatives m)) m)) as Hrun.
  { unfold removeDerivative, modify. rewrite Hidx, splice_last by exact Hne.
    reflexivity. }
  split; [exact Hidx|]. split; [exact Hrun|]. rewrite Hrun. simpl.
  destruct (derivatives m) as [|d0 ds] eqn:E using rev_ind; [congruence|].
  clear IHds. rewrite length_app. simpl.
  replace (length ds + 1 - 1)%nat with (length ds) by lia.
  rewrite take_app_length. split; [eauto|]. reflexivity.
Qed.

Lemma removeDerivative_absent_drops_last_witness :
  (snd (removeDerivative Examples.dStray Examples.mLowHigh)).(derivatives)
  = [Examples.dLow].
Proof.
  destruct (removeDerivative_absent_drops_last Examples.dStray Examples.mLowHigh)
    as (_ & Hrun & _).
  - vm_compute. discriminate.
  - apply (bool_decide_unpack _). vm_compute. reflexivity.
  - rewrite Hrun. reflexivity.
Defined.

(** A derivative the list contains is removed at its first position. *)
Lemma removeDerivative_present d m :
  d ∈ m.(derivatives) ->
  0 <= indexOf d m.(derivatives) < Z.of_nat (length m.(derivatives)).
Proof. intros H. apply (indexOf_from_present d _ 0) in H. unfold indexOf. lia. Qed.

(** ** fromData *)

Section FromData.

Variable decompose : Matrix4 -> Vector3 * Vector3.

Lemma fromData_existing modelData m :
  m.(derivatives) <> [] ->
  fromData decompose modelData m
  = (Throw (MkError "existing derivatives; failed to inflate from modelData"),
     set_units modelData.(data_units) m).
Proof.
  intros Hne. unfold fromData, bind, modify, gets, throw. simpl.
  destruct (derivatives m) as [|d ds]; [congruence|]. reflexivity.
Qed.

(** C6.  Inflating a model that already has derivatives fails, and the
    derivative list after the failure is the list before it. *)
Theorem fromData_existing_fails modelData m :
  m.(derivatives) <> [] ->
  exists e m',
    fromData decompose modelData m = (Throw e, m')
    /\ m'.(derivatives) = m.(derivatives).
Proof.
  intros Hne. eexists _, _. split.
  - apply fromData_existing, Hne.
  - reflexivity.
Qed.

(** C10.  When inflating fails because derivatives exist, the units
    field already holds [modelData.units]: the failure is not atomic. *)
Theorem fromData_existing_overwrites_units modelData m :
  m.(derivatives) <> [] ->
  exists e m',
    fromData decompose modelData m = (Throw e, m')
    /\ m'.(units) = modelData.(data_units)
    /\ (m.(units) <> modelData.(data_units) -> m' <> m).
Proof.
  intros Hne. eexists _, _. split; [|split].
  - apply fromData_existing, Hne.
  - reflexivity.
  - intros Hu E. apply Hu. rewrite <- E. reflexivity.
Qed.

End FromData.

(** On a model without derivatives the same call succeeds and adds the
    derivatives of the data. *)
Example fromData_fresh :
  fst (fromData Examples.noPose Examples.someData initial) = Normal tt
  /\ map quality (snd (fromData Examples.noPose Examples.someData initial)).(derivatives)
     = [Medium]
  /\ (snd (fromData Examples.noPose Examples.someData initial)).(units) = "mm".
Proof. repeat split. Qed.

Lemma fromData_existing_fails_witness :
  exists e m',
    fromData Examples.noPose Examples.someData Examples.mLowHigh = (Throw e, m')
    /\ m'.(derivatives) = [Examples.dLow; Examples.dHigh].
Proof.
  apply (fromData_existing_fails Examples.noPose Examples.someData
           Examples.mLowHigh).
  vm_compute. discriminate.
Defined.

Lemma fromData_existing_overwrites_units_witness :
  Examples.mLowHigh.(units) = "cm"
  /\ exists e m',
       fromData Examples.noPose Examples.someData Examples.mLowHigh = (Throw e, m')
       /\ m'.(units) = "mm"
       /\ (Examples.mLowHigh.(units) <> "mm" -> m' <> Examples.mLowHigh).
Proof.
  split; [reflexivity|].
  apply (fromData_existing_overwrites_units Examples.noPose Examples.someData
           Examples.mLowHigh).
  vm_compute. discriminate.
Defined.

(** ** Running a method: unfolding the monad and splitting on what the
    state holds *)

Ltac unfold_ops :=
  unfold bind, ret, throw, gets, modify, record, emit,
    derivativeDispose, addChild, removeChild, andThen, fresh,
    derivativeModel, derivativeBoundingBox in *.

Ltac step :=
  match goal with
  | |- context [match ?x with _ => _ end] => is_var x; destruct x
  | |- context [match ?x with _ => _ end] =>
      lazymatch x with
      | context [match _ with _ => _ end] => fail
      | _ => destruct x eqn:?
      end
  end.

Ltac run := repeat (unfold_ops; simpl in *; try step).

(** ** dispose *)

Lemma forEach_dispose ds m :
  forEach ds derivativeDispose m
  = (Normal tt, set_journal (m.(journal) ++ map EvDerivativeDispose ds) m).
Proof.
  revert m. induction ds as [|d ds IH]; intros m; simpl.
  - rewrite app_nil_r. destruct m; reflexivity.
  - unfold bind at 1. unfold derivativeDispose at 1, record, modify.
    rewrite IH. simpl. rewrite <- app_assoc. reflexivity.
Qed.

Lemma dispose_run m :
  dispose m
  = (Normal tt,
     set_journal
       (m.(journal) ++ map EvDerivativeDispose m.(derivatives) ++ [EvSuperDispose])
       (set_activeDerivative None m)).
Proof.
  unfold dispose. unfold bind at 1. unfold gets at 1.
  unfold bind at 1. rewrite forEach_dispose.
  unfold record, bind, modify. simpl. rewrite <- app_assoc. reflexivity.
Qed.

(** dispose() calls [dispose] on the derivatives of the list, and on
    nothing else, and clears the active reference. *)
Lemma dispose_listed m d :
  EvDerivativeDispose d ∈ (snd (dispose m)).(journal)
  <-> EvDerivativeDispose d ∈ m.(journal) \/ d ∈ m.(derivatives).
Proof.
  rewrite dispose_run. simpl. rewrite !elem_of_app, list_elem_of_fmap.
  split.
  - intros [H|[(y & [= ->] & Hy)|H]]; auto.
    apply list_elem_of_singleton in H. discriminate.
  - intros [H|H]; eauto.
Qed.

Lemma dispose_clears_active m :
  (snd (dispose m)).(activeDerivative) = None.
Proof. rewrite dispose_run. reflexivity. Qed.

(** As long as the active derivative is an element of the list, disposing
    the model disposes it. *)
Lemma dispose_active_listed m a :
  m.(activeDerivative) = Some a ->
  a ∈ m.(derivatives) ->
  EvDerivativeDispose a ∈ (snd (dispose m)).(journal)
  /\ (snd (dispose m)).(activeDerivative) = None.
Proof.
  intros _ Hin. split.
  - apply dispose_listed. auto.
  - apply dispose_clears_active.
Qed.

(** C8.  A model whose active derivative was taken off the list by
    [removeDerivative] (here after an update tick loaded it): dispose()
    clears the reference but never calls [dispose] on the derivative,
    although it holds a loaded model. *)
Theorem dispose_skips_unlisted_active :
  Reachable Examples.loadAll Examples.noPose Examples.idPose Examples.mOrphan
  /\ Examples.mOrphan.(activeDerivative) = Some Examples.dHigh
  /\ Examples.mOrphan.(derivatives) = []
  /\ derivativeModel Examples.dHigh Examples.mOrphan = Some 112%nat
  /\ fst (dispose Examples.mOrphan) = Normal tt
  /\ (snd (dispose Examples.mOrphan)).(activeDerivative) = None
  /\ (snd (dispose Examples.mOrphan)).(journal)
     = Examples.mOrphan.(journal) ++ [EvSuperDispose]
  /\ EvDerivativeDispose Examples.dHigh ∉ (snd (dispose Examples.mOrphan)).(journal).
Proof.
  split.
  { apply (reach_call _ _ _ (CallRemoveDerivative Examples.dHigh)).
    apply (reach_call _ _ _ (CallUpdate High true false)).
    apply (reach_call _ _ _ (CallSetLoadingManager 7%nat)).
    apply (reach_call _ _ _ (CallAddDerivative Examples.dHigh)).
    apply reach_initial. }
  repeat split; try reflexivity.
  rewrite dispose_listed. intros [H|H].
  - revert H. apply (bool_decide_unpack _). vm_compute. reflexivity.
  - vm_compute in H. inversion H.
Qed.

(** ** loadDerivative *)

Section Loading.

Variable load : LoadingManager -> string -> Derivative -> LoadOutcome.

Lemma loadDerivative_no_manager d m :
  m.(loadingManager) = None ->
  loadDerivative load d m
  = (Throw (MkError "can't load derivative, loading manager not set"), m).
Proof.
  intros H. unfold loadDerivative, bind, gets. simpl. rewrite H. reflexivity.
Qed.

Lemma loadDerivative_rejected d m lm e :
  m.(loadingManager) = Some lm ->
  load lm m.(assetPath) d = LoadRejected e ->
  loadDerivative load d m
  = (Normal (Rejected e),
     set_journal (m.(journal) ++ [EvLoad d lm m.(assetPath)]) m).
Proof.
  intros H E. unfold loadDerivative, bind, gets, record, modify. simpl.
  rewrite H, E. reflexivity.
Qed.

(** A model that holds a [Box3] object keeps exactly that box through
    any load: the guard [!this.boundingBox] is false for it. *)
Lemma loadDerivative_keeps_box d m b :
  m.(boundingBox) = Some b ->
  (snd (loadDerivative load d m)).(boundingBox) = Some b.
Proof.
  intros H. unfold loadDerivative, onLoaded. destruct m; simpl in H; subst.
  run; reflexivity.
Qed.

Lemma loadDerivative_keeps_manager d m :
  (snd (loadDerivative load d m)).(loadingManager) = m.(loadingManager).
Proof.
  unfold loadDerivative, onLoaded. destruct m. run; reflexivity.
Qed.

(** With a loading manager, [loadDerivative] calls [load] on the
    derivative exactly once and never throws. *)
Lemma loadDerivative_loads d m lm :
  m.(loadingManager) = Some lm ->
  loads (snd (loadDerivative load d m)).(journal) = loads m.(journal) ++ [d]
  /\ exists p, fst (loadDerivative load d m) = Normal p.
Proof.
  intros H. unfold loadDerivative, onLoaded, loads.
  destruct m; simpl in H; subst.
  run; rewrite ?omap_app; simpl; rewrite ?app_nil_r; eauto.
Qed.

(** What a load that resolves with a model and a bounding box does to a
    model with a loading manager: the derivative becomes active, its
    model is attached, the previously active derivative is disposed, and
    the update event is emitted last. *)
Lemma loadDerivative_swaps d m lm o box :
  m.(loadingManager) = Some lm ->
  load lm m.(assetPath) d
  = LoadResolved {| d_model := Some o; d_boundingBox := Some box |} ->
  let m' := snd (loadDerivative load d m) in
  fst (loadDerivative load d m) = Normal (Resolved tt)
  /\ m'.(activeDerivative) = Some d
  /\ o ∈ m'.(children)
  /\ (exists j, m'.(journal) = j ++ [EvEmit updateEvent])
  /\ (forall a, m.(activeDerivative) = Some a ->
                EvDerivativeDispose a ∈ m'.(journal)).
Proof.
  intros H E. unfold loadDerivative, onLoaded.
  unfold bind at 1. unfold gets at 1. rewrite H.
  unfold bind at 1. unfold gets at 1.
  unfold bind at 1. unfold record at 1, modify at 1.
  cbn [assetPath set_journal]. rewrite E.
  destruct m; simpl in H; subst.
  unfold_ops. cbn [loaded set_loaded oid]. rewrite !lookup_insert_eq.
  cbn [d_model d_boundingBox].
  run; rewrite ?lookup_insert_eq in *; simplify_eq; simpl.
  all: repeat split; eauto; try set_solver.
Qed.

End Loading.

(** ** Properties every method preserves *)

Section Preservation.

Variable P : Model -> Prop.

Lemma preserves_ret {A} (a : A) : preserves P (ret a).
Proof. intros m H. exact H. Qed.

Lemma preserves_throw {A} e : preserves P (@throw Model A e).
Proof. intros m H. exact H. Qed.

Lemma preserves_gets {A} (f : Model -> A) : preserves P (gets f).
Proof. intros m H. exact H. Qed.

Lemma preserves_modify f :
  (forall m, P m -> P (f m)) -> preserves P (modify f).
Proof. intros Hf m H. apply Hf, H. Qed.

Lemma preserves_bind {A B} (c : M Model A) (k : A -> M Model B) :
  preserves P c -> (forall a, preserves P (k a)) -> preserves P (bind c k).
Proof.
  intros Hc Hk m H. unfold bind. specialize (Hc m H).
  destruct (c m) as [[a|e] m1]; simpl in *; [apply Hk, Hc|exact Hc].
Qed.

Lemma preserves_forEach {A} (l : list A) body :
  (forall x, preserves P (body x)) -> preserves P (forEach l body).
Proof.
  intros Hb. induction l as [|x l IH]; simpl.
  - apply preserves_ret.
  - apply preserves_bind; [apply Hb|intros _; exact IH].
Qed.

Lemma preserves_andThen {A B} (p : Promise A) (cb : A -> M Model (Promise B)) :
  (forall a, preserves P (cb a)) -> preserves P (andThen p cb).
Proof.
  intros Hcb m H. destruct p as [a|e]; simpl; [|exact H].
  specialize (Hcb a m H). destruct (cb a m) as [[q|e] m1]; exact Hcb.
Qed.

Lemma preserves_chain {A} (l : list A) (f : A -> M Model (Promise unit)) acc :
  (forall x, preserves P (f x)) ->
  preserves P acc ->
  preserves P
    (fold_left
       (fun (promise : M Model (Promise unit)) x =>
          bind promise (fun p => andThen p (fun _ => f x)))
       l acc).
Proof.
  intros Hf. revert acc. induction l as [|x l IH]; intros acc Hacc; simpl.
  - exact Hacc.
  - apply IH, preserves_bind; [exact Hacc|].
    intros p. apply preserves_andThen. intros _. apply Hf.
Qed.

End Preservation.

Ltac preserve :=
  repeat
    match goal with
    | |- preserves _ (ret _) => apply preserves_ret
    | |- preserves _ (throw _) => apply preserves_throw
    | |- preserves _ (gets _) => apply preserves_gets
    | |- preserves _ (bind _ _) => apply preserves_bind; [|intros ?]
    | |- preserves _ (forEach _ _) => apply preserves_forEach; intros ?
    | |- preserves _ (andThen _ _) => apply preserves_andThen; intros ?
    | |- preserves _ (modify _) =>
        apply preserves_modify; let m := fresh "m" in intros m ?; destruct m
    | |- preserves _ (match ?x with _ => _ end) => destruct x
    end.

Section Invariant.

Variable load : LoadingManager -> string -> Derivative -> LoadOutcome.
Variable decompose : Matrix4 -> Vector3 * Vector3.
Variable compose : Vector3 -> Vector3 -> Matrix4.

Lemma selectDerivative_boxed q u : preserves boxed (selectDerivative q u).
Proof.
  unfold selectDerivative, findDerivative.
  destruct (indexOf q _qualityLevels <? 0); preserve.
Qed.

Lemma loadDerivative_boxed d : preserves boxed (loadDerivative load d).
Proof.
  unfold loadDerivative, onLoaded, removeChild, addChild, emit,
    derivativeDispose, record.
  preserve; unfold boxed in *; simpl in *; eauto.
  all: match goal with
       | |- context [if ?b then _ else _] => destruct b
       end; simpl; assumption.
Qed.

Lemma autoLoad_boxed q : preserves boxed (autoLoad load q).
Proof.
  unfold autoLoad, loadSequence, findDerivative, thenLoadDerivative.
  apply preserves_bind.
  - preserve. apply selectDerivative_boxed.
  - intros l. destruct (length l =? 0)%nat; [apply preserves_ret|].
    apply preserves_chain; [apply loadDerivative_boxed|apply preserves_ret].
Qed.

Lemma fromData_boxed data : preserves boxed (fromData decompose data).
Proof.
  unfold fromData, updatePropsFromMatrix, newDerivative, addDerivative,
    fresh, addChild, emit, record.
  preserve; unfold boxed in *; simpl in *; eauto.
  - intros m H. exact H.
  - destruct (decompose matrix0). assumption.
  - intros m H. exact H.
Qed.

Lemma update_boxed q a p : preserves boxed (update load compose q a p).
Proof.
  unfold update. preserve; try apply autoLoad_boxed;
    unfold boxed in *; simpl in *; eauto.
Qed.

Lemma perform_boxed c m :
  boxed m -> boxed (perform load decompose compose c m).
Proof.
  intros H. destruct c; simpl; try exact H.
  - apply update_boxed, H.
  - rewrite dispose_run. exact H.
  - apply fromData_boxed, H.
Qed.

(** No method ever leaves [this.boundingBox] null: the field is
    initialised with an (empty) [Box3] and only ever overwritten with
    another one. *)
Lemma Reachable_boxed m :
  Reachable load decompose compose m -> boxed m.
Proof.
  induction 1 as [|c m _ IH].
  - unfold boxed. simpl. eauto.
  - apply perform_boxed, IH.
Qed.

(** Hence the assignment [this.boundingBox = derivative.boundingBox.clone()]
    is never executed: a load leaves the box of a reachable model as it
    is. *)
Lemma Reachable_load_keeps_box m d :
  Reachable load decompose compose m ->
  (snd (loadDerivative load d m)).(boundingBox) = m.(boundingBox).
Proof.
  intros H. destruct (Reachable_boxed m H) as [b Hb].
  rewrite Hb. apply loadDerivative_keeps_box, Hb.
Qed.

End Invariant.

(** C4.  A new model (its [boundingBox] field holds the empty box the
    initialiser creates) with a loading manager and a High derivative: the
    load resolves with a model and the box [unitBox], the derivative
    becomes active, but the bounding box of the model is still the empty
    box and not the box of the derivative. *)
Theorem loadDerivative_leaves_initial_box :
  Reachable Examples.loadAll Examples.noPose Examples.idPose Examples.mHighReady
  /\ Examples.mHighReady.(boundingBox) = Some newBox3
  /\ fst (loadDerivative Examples.loadAll Examples.dHigh Examples.mHighReady)
     = Normal (Resolved tt)
  /\ (snd (loadDerivative Examples.loadAll Examples.dHigh Examples.mHighReady)).(activeDerivative)
     = Some Examples.dHigh
  /\ derivativeBoundingBox Examples.dHigh
       (snd (loadDerivative Examples.loadAll Examples.dHigh Examples.mHighReady))
     = Some Examples.unitBox
  /\ (snd (loadDerivative Examples.loadAll Examples.dHigh Examples.mHighReady)).(boundingBox)
     = Some newBox3
  /\ (snd (loadDerivative Examples.loadAll Examples.dHigh Examples.mHighReady)).(boundingBox)
     <> Some (clone Examples.unitBox).
Proof.
  split.
  { apply (reach_call _ _ _ (CallSetLoadingManager 7%nat)).
    apply (reach_call _ _ _ (CallAddDerivative Examples.dHigh)).
    apply reach_initial. }
  repeat split; try reflexivity.
  intros H.
  apply (f_equal (fun b => match b with
                           | Some b => PrimFloat.eqb b.(min).(x) 0%float
                           | None => false
                           end)) in H.
  vm_compute in H. discriminate.
Qed.

(** ** autoLoad *)

Section AutoLoad.

Variable load : LoadingManager -> string -> Derivative -> LoadOutcome.

Lemma loadSequence_run q m :
  0 <= indexOf q _qualityLevels ->
  loadSequence q m
  = (Normal (option_list (findIn m.(derivatives) Thumb Web)
             ++ option_list (selectDerivative_spec m.(derivatives) q Web)), m).
Proof.
  intros Hq. unfold loadSequence. unfold bind at 1.
  unfold findDerivative at 1, bind at 1, gets at 1, ret at 1. simpl.
  unfold bind at 1. rewrite selectDerivative_run by exact Hq. simpl.
  destruct (findIn _ Thumb Web), (selectDerivative_spec _ q Web); reflexivity.
Qed.

Lemma loadSequence_unsupported n m :
  loadSequence (OtherQuality n) m
  = (Throw (MkError "derivative quality not supported"), m).
Proof. reflexivity. Qed.

(** For a quality outside [_qualityLevels] the error of
    [selectDerivative] leaves [autoLoad] as a thrown error, not as a
    rejected promise. *)
Lemma autoLoad_unsupported_throws n m :
  autoLoad load (OtherQuality n) m
  = (Throw (MkError "derivative quality not supported"), m).
Proof. reflexivity. Qed.

(** A thumbnail derivative can always stand in as the target. *)
Lemma thumb_selectable ds q t :
  supported q ->
  findIn ds Thumb Web = Some t ->
  exists d, selectDerivative_spec ds q Web = Some d.
Proof.
  intros Hq Ht.
  destruct (selectDerivative_spec ds q Web) as [d|] eqn:E; [eauto|].
  exfalso. rewrite selectDerivative_spec_None in E by exact Hq.
  rewrite findIn_exactMatch in Ht.
  apply exactMatch_first in Ht as (i & Hi & Hu & Hqt & _).
  apply (E t); [apply list_elem_of_lookup; eauto|exact Hu|].
  rewrite Hqt. unfold supported. simpl. eauto.
Qed.

Lemma thenLoad_settles d m :
  exists p, fst (thenLoadDerivative load (Resolved tt) d m) = Normal p.
Proof.
  unfold thenLoadDerivative, andThen.
  destruct (loadDerivative load d m) as [[p|e] m1]; simpl; eauto.
Qed.

Lemma thenLoad_without_manager d m :
  m.(loadingManager) = None ->
  thenLoadDerivative load (Resolved tt) d m
  = (Normal (Rejected (MkError "can't load derivative, loading manager not set")), m).
Proof.
  intros H. unfold thenLoadDerivative, andThen.
  rewrite loadDerivative_no_manager by exact H. reflexivity.
Qed.

Lemma thenLoad_with_manager d m lm :
  m.(loadingManager) = Some lm ->
  loads (snd (thenLoadDerivative load (Resolved tt) d m)).(journal) = loads m.(journal) ++ [d]
  /\ (snd (thenLoadDerivative load (Resolved tt) d m)).(loadingManager) = Some lm.
Proof.
  intros H. unfold thenLoadDerivative, andThen.
  pose proof (loadDerivative_loads load d m lm H) as [Hl _].
  pose proof (loadDerivative_keeps_manager load d m) as Hm.
  destruct (loadDerivative load d m) as [[p|e] m1]; simpl in *;
    rewrite Hl, Hm; auto.
Qed.

Lemma thenLoad_resolved_manager d m m1 :
  thenLoadDerivative load (Resolved tt) d m = (Normal (Resolved tt), m1) ->
  exists lm, m.(loadingManager) = Some lm.
Proof.
  intros E. destruct (loadingManager m) as [lm|] eqn:H; [eauto|].
  rewrite thenLoad_without_manager in E by exact H. discriminate.
Qed.

Lemma autoLoad_run q m :
  0 <= indexOf q _qualityLevels ->
  autoLoad load q m
  = match findIn m.(derivatives) Thumb Web,
          selectDerivative_spec m.(derivatives) q Web with
    | None, None =>
        (Normal (Rejected (MkError "no suitable web-derivatives available")), m)
    | None, Some d => thenLoadDerivative load (Resolved tt) d m
    | Some t, None => thenLoadDerivative load (Resolved tt) t m
    | Some t, Some d =>
        match thenLoadDerivative load (Resolved tt) t m with
        | (Normal (Resolved _), m1) => thenLoadDerivative load (Resolved tt) d m1
        | (Normal (Rejected e), m1) => (Normal (Rejected e), m1)
        | (Throw e, m1) => (Throw e, m1)
        end
    end.
Proof.
  intros Hq. unfold autoLoad. unfold bind at 1.
  rewrite loadSequence_run by exact Hq.
  destruct (findIn _ Thumb Web) as [t|], (selectDerivative_spec _ q Web) as [d|];
    unfold option_list, option_rect; cbn [app length Nat.eqb fold_left];
    try reflexivity.
  unfold bind, ret.
  destruct (thenLoadDerivative load (Resolved tt) t m) as [[[[]|e]|e] m1];
    reflexivity.
Qed.

(** C3 (amended).  For a supported quality, [autoLoad] builds the
    sequence "thumbnail if there is one, then the selected derivative if
    there is one".  An empty sequence gives a rejected promise and no
    change.  A thumbnail always comes with a target.  The loads run one
    after the other: the target load starts from the state the settled
    thumbnail load left, and only if that load was fulfilled, in which
    case exactly the two loads are issued, thumbnail first; if the
    thumbnail load is rejected (also for want of a loading manager) the
    target load is not issued and the rejection is the result. *)
Theorem autoLoad_sequential q m :
  0 <= indexOf q _qualityLevels ->
  let thumb := findIn m.(derivatives) Thumb Web in
  let second := selectDerivative_spec m.(derivatives) q Web in
  loadSequence q m = (Normal (option_list thumb ++ option_list second), m)
  /\ (thumb = None -> second = None ->
      autoLoad load q m
      = (Normal (Rejected (MkError "no suitable web-derivatives available")), m))
  /\ (forall d, thumb = None -> second = Some d ->
      autoLoad load q m
      = thenLoadDerivative load (Resolved tt) d m)
  /\ (forall t, thumb = Some t -> exists d, second = Some d)
  /\ (forall t d m1, thumb = Some t -> second = Some d ->
      thenLoadDerivative load (Resolved tt) t m
      = (Normal (Resolved tt), m1) ->
      autoLoad load q m
      = thenLoadDerivative load (Resolved tt) d m1
      /\ loads (snd (autoLoad load q m)).(journal)
         = loads m.(journal) ++ [t; d])
  /\ (forall t d e m1, thumb = Some t -> second = Some d ->
      thenLoadDerivative load (Resolved tt) t m
      = (Normal (Rejected e), m1) ->
      autoLoad load q m = (Normal (Rejected e), m1)
      /\ loads m1.(journal)
         = loads m.(journal)
           ++ match m.(loadingManager) with Some _ => [t] | None => [] end).
Proof.
  intros Hq thumb second. subst thumb second.
  pose proof (autoLoad_run q m Hq) as Hrun.
  pose proof thenLoad_resolved_manager as Hres.
  pose proof thenLoad_with_manager as Hwith.
  pose proof thenLoad_without_manager as Hwithout.
  split; [apply loadSequence_run, Hq|].
  split; [intros Ht Hs; rewrite Hrun, Ht, Hs; reflexivity|].
  split; [intros d Ht Hs; rewrite Hrun, Ht, Hs; reflexivity|].
  split.
  { intros t Ht. eapply thumb_selectable; [|exact Ht].
    apply supported_indexOf, Hq. }
  split.
  - intros t d m1 Ht Hs E. rewrite Hrun, Ht, Hs, E. split; [reflexivity|].
    destruct (Hres t m m1 E) as [lm Hlm].
    destruct (Hwith t m lm Hlm) as [Hl1 Hm1].
    rewrite E in Hl1, Hm1. simpl in Hl1, Hm1.
    destruct (Hwith d m1 lm Hm1) as [Hl2 _].
    rewrite Hl2, Hl1, <- app_assoc. reflexivity.
  - intros t d e m1 Ht Hs E. rewrite Hrun, Ht, Hs, E. split; [reflexivity|].
    destruct (loadingManager m) as [lm|] eqn:Hlm.
    + destruct (Hwith t m lm Hlm) as [Hl1 _].
      rewrite E in Hl1. exact Hl1.
    + rewrite Hwithout in E by exact Hlm.
      injection E as _ <-. rewrite app_nil_r. reflexivity.
Qed.

End AutoLoad.

Lemma autoLoad_sequential_witness :
  loads (snd (autoLoad Examples.loadAll High Examples.mThumbHighReady)).(journal)
  = [Examples.dThumb; Examples.dHigh].
Proof.
  destruct (autoLoad_sequential Examples.loadAll High Examples.mThumbHighReady)
    as (_ & _ & _ & _ & Htwo & _).
  - vm_compute. discriminate.
  - destruct (Htwo Examples.dThumb Examples.dHigh
                (snd (loadDerivative Examples.loadAll Examples.dThumb
                        Examples.mThumbHighReady)))
      as [_ Hloads]; [reflexivity..|].
    rewrite Hloads. reflexivity.
Defined.

(** C3, as stated, fails: with both a Thumb and a High derivative present,
    a loader that rejects the thumbnail makes [autoLoad] issue one load,
    and without a loading manager it issues none; in both cases the number
    of loads is not two. *)
Lemma autoLoad_thumb_rejected_not_two_loads :
  findIn Examples.mThumbHighReady.(derivatives) Thumb Web = Some Examples.dThumb
  /\ findIn Examples.mThumbHighReady.(derivatives) High Web = Some Examples.dHigh
  /\ fst (autoLoad Examples.loadNoThumb High Examples.mThumbHighReady)
     = Normal (Rejected (MkError "404"))
  /\ loads (snd (autoLoad Examples.loadNoThumb High Examples.mThumbHighReady)).(journal)
     = [Examples.dThumb]
  /\ length (loads (snd (autoLoad Examples.loadNoThumb High
                           Examples.mThumbHighReady)).(journal)) <> 2%nat
  /\ loads (snd (autoLoad Examples.loadAll High Examples.mThumbHigh)).(journal) = []
  /\ length (loads (snd (autoLoad Examples.loadAll High
                           Examples.mThumbHigh)).(journal)) <> 2%nat.
Proof. repeat split; try reflexivity; vm_compute; discriminate. Qed.

End ModelFacts.

(** * Properties of CVDocument *)

Module CVDocumentFacts.

Import CVDocumentTs.

Section Guards.

Variable validate : IDocument -> bool.
Variable isEmpty : CVDocument -> bool.
Variable sceneFromDocument nodeFromDocument :
  NodeRef -> IDocument -> nat -> PathToComponent -> M CVDocument PathToComponent.
Variable getAssetName : string -> string.
Variable INodeComponents : Type.
Variable rootToDocument :
  CVDocument -> IDocument -> ComponentToPath -> option INodeComponents ->
  IDocument * nat.

(** C2.  A document that fails validation makes [openDocument] throw the
    validation error before anything else happens: the component is
    exactly as before, so no node was disposed, created or reparented
    and the asset path and the name were not set. *)
Theorem openDocument_invalid_unchanged documentData assetPath mergeParent s :
  validate documentData = false ->
  openDocument validate sceneFromDocument nodeFromDocument getAssetName
    documentData assetPath mergeParent s
  = (Throw (MkError "document schema validation failed"), s).
Proof.
  intros H. unfold openDocument. unfold bind at 1. rewrite H. reflexivity.
Qed.

(** C5.  [appendModel] (and [appendGeometry]) throws when the given
    parent belongs to another graph, and when no parent is given and the
    graph is empty; in both cases the component is exactly as before. *)
Theorem appendModel_rejects assetPath colorMap occlusionMap normalMap quality parent s :
  match parent with
  | Some p => p.(graph) <> s.(innerGraph)
  | None => isEmpty s = true
  end ->
  appendModel isEmpty assetPath quality parent s
  = (Throw (MkError match parent with
                    | Some _ => "invalid parent node"
                    | None => "empty document, can't append model"
                    end), s)
  /\ appendGeometry isEmpty assetPath colorMap occlusionMap normalMap quality parent s
     = (Throw (MkError match parent with
                       | Some _ => "invalid parent node"
                       | None => "empty document, can't append geometry"
                       end), s).
Proof.
  intros H. unfold appendModel, appendGeometry, bind, gets. simpl.
  destruct parent as [p|].
  - rewrite bool_decide_eq_true_2 by exact H. split; reflexivity.
  - simpl. rewrite H. split; reflexivity.
Qed.

(** An empty graph makes both methods throw whatever the parent is. *)
Lemma appendModel_empty assetPath quality parent s :
  isEmpty s = true ->
  exists e, appendModel isEmpty assetPath quality parent s = (Throw e, s).
Proof.
  intros H. unfold appendModel, bind, gets. simpl.
  destruct parent as [p|]; simpl.
  - destruct (bool_decide (graph p <> innerGraph s)); simpl;
      [eauto|rewrite H; eauto].
  - rewrite H. eauto.
Qed.

(** C7.  [deflateDocument] throws on an empty graph; otherwise it
    returns a document whose asset block is the fixed one, provided the
    scene exporter leaves the asset block of the document it fills
    alone. *)
Theorem deflateDocument_asset components s :
  (forall s' d pm c, (fst (rootToDocument s' d pm c)).(asset) = d.(asset)) ->
  if isEmpty s then
    deflateDocument isEmpty INodeComponents rootToDocument components s
    = (Throw (MkError "empty document, can't serialize"), s)
  else
    exists document,
      deflateDocument isEmpty INodeComponents rootToDocument components s
      = (Normal document, s)
      /\ document.(asset)
         = {| type := "application/si-dpo-3d.document+json";
              version := "1.0";
              generator := "Voyager";
              copyright := "(c) Smithsonian Institution. All rights reserved." |}.
Proof.
  intros Hframe. unfold deflateDocument, bind, gets. simpl.
  destruct (isEmpty s); [reflexivity|].
  match goal with
  | |- context [rootToDocument s ?d ?pm components] =>
      specialize (Hframe s d pm components);
      destruct (rootToDocument s d pm components) as [document sceneIndex]
  end.
  eexists. split; [reflexivity|]. simpl in *. exact Hframe.
Qed.

End Guards.

(** The guards are the only thing between the caller and a changed graph:
    a valid document replaces the node tree and sets the asset path, and
    [appendModel] with a parent of the graph creates a node with a model. *)
Example openDocument_valid :
  let r := openDocument DocExamples.validateType DocExamples.markImported
             DocExamples.markImported DocExamples.fileName
             DocExamples.twoRoots (Some "new/document.json") MergeUndefined
             DocExamples.populated in
  fst r = Normal tt
  /\ (snd r).(disposed) = [1%nat]
  /\ (snd r).(live) !! 1%nat = None
  /\ (snd r).(assetPath) = "new/document.json".
Proof. repeat split. Qed.

Example appendModel_accepts :
  let r := appendModel DocExamples.rootHasNoContent "model.glb"
             (Some (inl ModelTs.High)) None DocExamples.populated in
  fst r = Normal tt
  /\ (model <$> (snd r).(live) !! 2%nat)
     = Some (Some [{| paths := ["model.glb"];
                      requested := Some (inl ModelTs.High) |}])
  /\ (children <$> (snd r).(live) !! 0%nat) = Some [1%nat; 2%nat].
Proof. repeat split. Qed.

Lemma openDocument_invalid_unchanged_witness :
  openDocument DocExamples.validateType DocExamples.markImported
    DocExamples.markImported DocExamples.fileName
    DocExamples.plainText (Some "new/document.json") MergeUndefined
    DocExamples.populated
  = (Throw (MkError "document schema validation failed"), DocExamples.populated).
Proof.
  apply (openDocument_invalid_unchanged DocExamples.validateType).
  reflexivity.
Defined.

Lemma appendModel_rejects_witness :
  appendModel DocExamples.rootHasNoContent "model.glb" None
    (Some DocExamples.foreignNode) DocExamples.populated
  = (Throw (MkError "invalid parent node"), DocExamples.populated)
  /\ appendModel DocExamples.rootHasNoContent "model.glb" None None
       DocExamples.newDocument
     = (Throw (MkError "empty document, can't append model"),
        DocExamples.newDocument).
Proof.
  split.
  - apply (appendModel_rejects DocExamples.rootHasNoContent "model.glb"
             None None None None (Some DocExamples.foreignNode)
             DocExamples.populated).
    simpl. lia.
  - apply (appendModel_rejects DocExamples.rootHasNoContent "model.glb"
             None None None None None DocExamples.newDocument).
    reflexivity.
Defined.

Lemma deflateDocument_asset_witness :
  exists document,
    deflateDocument DocExamples.rootHasNoContent unit DocExamples.exportScene
      None DocExamples.populated
    = (Normal document, DocExamples.populated)
    /\ document.(asset)
       = {| type := "application/si-dpo-3d.document+json";
            version := "1.0";
            generator := "Voyager";
            copyright := "(c) Smithsonian Institution. All rights reserved." |}.
Proof.
  apply (deflateDocument_asset DocExamples.rootHasNoContent unit
           DocExamples.exportScene None DocExamples.populated).
  intros s' d pm c. reflexivity.
Defined.

End CVDocumentFacts.

(** * Further properties of Model.ts *)

Module ModelExtra.

Import ModelTs ModelSpec ModelMore ModelFacts.

(** ** The derivative list *)

Lemma indexOf_from_first {A} `{EqDecision A} (x : A) (l1 l2 : list A) i :
  x ∉ l1 -> indexOf_from i x (l1 ++ x :: l2) = i + Z.of_nat (length l1).
Proof.
  revert i. induction l1 as [|y l1 IH]; intros i Hx; simpl.
  - destruct (decide (x = x)); [lia|congruence].
  - apply not_elem_of_cons in Hx as [Hne Hx].
    destruct (decide (y = x)); [congruence|]. rewrite IH by exact Hx. lia.
Qed.

Lemma splice_one {A} (l1 l2 : list A) x :
  splice (Z.of_nat (length l1)) 1 (l1 ++ x :: l2) = l1 ++ l2.
Proof.
  unfold splice. rewrite length_app. simpl.
  destruct (Z.of_nat (length l1) <? 0) eqn:E; [apply Z.ltb_lt in E; lia|].
  replace (Z.min (Z.of_nat (length l1)) (Z.of_nat (length l1 + S (length l2))))
    with (Z.of_nat (length l1)) by lia.
  replace (Z.min (Z.max 1 0)
             (Z.of_nat (length l1 + S (length l2)) - Z.of_nat (length l1)))
    with 1 by lia.
  rewrite Nat2Z.id.
  replace (Z.to_nat (Z.of_nat (length l1) + 1)) with (length l1 + 1)%nat by lia.
  rewrite take_app_length, <- drop_drop, drop_app_length. reflexivity.
Qed.

(** X1.  Removing a derivative the list contains removes its first
    occurrence and nothing else. *)
Theorem removeDerivative_removes_first d m :
  d ∈ m.(derivatives) ->
  exists l1 l2,
    m.(derivatives) = l1 ++ d :: l2
    /\ (d ∉ l1)
    /\ removeDerivative d m = (Normal tt, set_derivatives (l1 ++ l2) m).
Proof.
  intros Hin. apply list_elem_of_split_l in Hin as (l1 & l2 & E & Hl1).
  exists l1, l2. split; [exact E|]. split; [exact Hl1|].
  unfold removeDerivative, modify, indexOf. rewrite E.
  rewrite indexOf_from_first by exact Hl1. rewrite Z.add_0_l, splice_one.
  reflexivity.
Qed.

Lemma removeDerivative_removes_first_witness :
  (snd (removeDerivative Examples.dLow Examples.mLowHigh)).(derivatives)
  = [Examples.dHigh].
Proof.
  destruct (removeDerivative_removes_first Examples.dLow Examples.mLowHigh)
    as (l1 & l2 & E & Hl1 & Hrun).
  - apply (bool_decide_unpack _). vm_compute. reflexivity.
  - reflexivity.
Defined.

(** X2.  Adding a derivative the list does not hold and removing it again
    gives the model back. *)
Theorem addDerivative_removeDerivative d m :
  d ∉ m.(derivatives) ->
  snd (removeDerivative d (snd (addDerivative d m))) = m.
Proof.
  intros Hd. unfold removeDerivative, addDerivative, modify, indexOf. simpl.
  rewrite indexOf_from_first by exact Hd.
  rewrite Z.add_0_l, splice_one, app_nil_r. destruct m; reflexivity.
Qed.

Lemma addDerivative_removeDerivative_witness :
  snd (removeDerivative Examples.dStray
         (snd (addDerivative Examples.dStray Examples.mLowHigh)))
  = Examples.mLowHigh.
Proof.
  apply (addDerivative_removeDerivative Examples.dStray Examples.mLowHigh).
  apply (bool_decide_unpack _). vm_compute. reflexivity.
Defined.

Lemma findIn_app ds1 ds2 q u :
  findIn (ds1 ++ ds2) q u
  = match findIn ds1 q u with
    | Some d => Some d
    | None => findIn ds2 q u
    end.
Proof.
  induction ds1 as [|d ds1 IH]; simpl; [reflexivity|].
  destruct (bool_decide (usage d = u) && bool_decide (quality d = q));
    [reflexivity|exact IH].
Qed.

(** X3.  A derivative added later never replaces the answer of
    [findDerivative]: if a derivative with the requested usage and quality
    was found before [addDerivative], the same one is found after it. *)
Theorem addDerivative_keeps_found q u d d' m :
  fst (findDerivative q u m) = Normal (Some d) ->
  fst (findDerivative q u (snd (addDerivative d' m))) = Normal (Some d).
Proof.
  unfold findDerivative, addDerivative, bind, gets, ret, modify. simpl.
  intros [= E]. rewrite findIn_app, E. reflexivity.
Qed.

Lemma addDerivative_keeps_found_witness :
  fst (findDerivative High None
         (snd (addDerivative
                 {| oid := 99; usage := Web; quality := High; assets := [] |}
                 Examples.mLowHigh)))
  = Normal (Some Examples.dHigh).
Proof.
  apply (addDerivative_keeps_found High None Examples.dHigh _ Examples.mLowHigh).
  reflexivity.
Defined.

(** ** selectDerivative *)

Lemma exactMatch_sound ds q u d :
  exactMatch ds q u = Some d -> d ∈ ds /\ usage d = u /\ quality d = q.
Proof.
  intros E. apply exactMatch_first in E as (i & Hi & Hu & Hq & _).
  split; [apply list_elem_of_lookup; eauto|auto].
Qed.

(** Splits a successful selection into the level that answered and the
    levels that were tried before it without an answer. *)
Ltac selected Hsel d' Hin :=
  unfold selectDerivative_spec, firstMatch in Hsel; simpl in Hsel;
  repeat match type of Hsel with
    | context [exactMatch ?a ?b ?c] =>
        let E := fresh "E" in
        destruct (exactMatch a b c) eqn:E; simpl in Hsel;
        [ apply exactMatch_sound in E as (? & ? & ?)
        | pose proof (proj1 (exactMatch_None _ _ _) E d' Hin) ]
    end;
  try discriminate Hsel; try (injection Hsel as Hsel; subst).

Ltac answered Hsel :=
  unfold selectDerivative_spec, firstMatch in Hsel; simpl in Hsel;
  repeat match type of Hsel with
    | context [exactMatch ?a ?b ?c] =>
        let E := fresh "E" in
        destruct (exactMatch a b c) eqn:E; simpl in Hsel;
        [ apply exactMatch_sound in E as (? & ? & ?) | clear E ]
    end;
  try discriminate Hsel; try (injection Hsel as Hsel; subst).

(** X4.  Whatever [selectDerivative] returns is an element of the
    derivative list, has the requested usage (Web by default) and sits at
    one of the five supported levels. *)
Theorem selectDerivative_sound q u m d :
  fst (selectDerivative q u m) = Normal (Some d) ->
  d ∈ m.(derivatives)
  /\ usage d = usageOrWeb u
  /\ supported (quality d).
Proof.
  intros Hsel.
  destruct q; try discriminate Hsel;
    rewrite selectDerivative_run in Hsel by (vm_compute; discriminate);
    simpl in Hsel; injection Hsel as Hsel;
    answered Hsel;
    match goal with
    | Hq : quality d = _ |- _ =>
        repeat split; try assumption; unfold supported; rewrite Hq; simpl; eauto
    end.
Qed.

Lemma selectDerivative_sound_witness :
  Examples.dHigh ∈ Examples.mLowHigh.(derivatives)
  /\ usage Examples.dHigh = Web
  /\ supported (quality Examples.dHigh).
Proof.
  apply (selectDerivative_sound Medium None Examples.mLowHigh Examples.dHigh).
  reflexivity.
Defined.

(** X5.  The selection is the nearest level: if any derivative of the
    requested usage sits at or above the requested level, the selected one
    is the lowest such; a derivative below the requested level is selected
    only if none sits at or above it, and then it is the highest one. *)
Theorem selectDerivative_nearest q u m d d' (rq rd r' : nat) :
  fst (selectDerivative q u m) = Normal (Some d) ->
  d' ∈ m.(derivatives) ->
  usage d' = usageOrWeb u ->
  rank q = Some rq ->
  rank (quality d) = Some rd ->
  rank (quality d') = Some r' ->
  ((rq <= r')%nat -> (rq <= rd <= r')%nat)
  /\ ((r' < rq)%nat -> (rd < rq)%nat -> (r' <= rd)%nat).
Proof.
  intros Hsel Hin Hu Hq Hd Hd'.
  destruct q; try discriminate Hq;
    rewrite selectDerivative_run in Hsel by (vm_compute; discriminate);
    simpl in Hsel; injection Hsel as Hsel;
    selected Hsel d' Hin;
    match goal with
    | Hqd : quality d = _ |- _ => rewrite Hqd in Hd
    end;
    simpl in Hq, Hd; injection Hq as <-; injection Hd as <-;
    destruct (quality d') eqn:Eq'; try discriminate Hd';
    simpl in Hd'; injection Hd' as <-;
    first [ lia | exfalso; tauto ].
Qed.

Lemma selectDerivative_nearest_witness :
  ((2 <= 3)%nat -> (2 <= 3 <= 3)%nat)
  /\ ((3 < 2)%nat -> (3 < 2)%nat -> (3 <= 3)%nat).
Proof.
  apply (selectDerivative_nearest Medium None Examples.mLowHigh
           Examples.dHigh Examples.dHigh 2 3 3).
  - reflexivity.
  - apply (bool_decide_unpack _). vm_compute. reflexivity.
  - reflexivity.
  - reflexivity.
  - reflexivity.
  - reflexivity.
Defined.

(** X6.  After [addWebModelDerivative(uri, quality)] with a supported
    quality, [selectDerivative(quality)] answers with a Web derivative of
    exactly that quality, never with a fallback; it is the new derivative,
    holding the one model asset, unless an older derivative of that
    quality shadows it. *)
Theorem addWebModelDerivative_selected uri q m :
  0 <= indexOf q _qualityLevels ->
  exists d,
    fst (selectDerivative q None (snd (addWebModelDerivative uri q m)))
    = Normal (Some d)
    /\ quality d = q
    /\ usage d = Web
    /\ (findIn m.(derivatives) q Web = None ->
        d.(assets) = [{| uri := uri; assetType := AssetModel; mapType := None |}]).
Proof.
  intros Hq. rewrite selectDerivative_run by exact Hq.
  unfold addWebModelDerivative, newDerivative, addDerivative, fresh, bind,
    ret, modify. simpl.
  unfold selectDerivative_spec. rewrite <- findIn_exactMatch, findIn_app.
  destruct (findIn (derivatives m) q Web) as [d|] eqn:E.
  - exists d. rewrite findIn_exactMatch in E.
    apply exactMatch_sound in E as (_ & Hu & Hqd).
    repeat split; try assumption. discriminate.
  - simpl. rewrite !bool_decide_eq_true_2 by reflexivity. simpl.
    eexists. repeat split.
Qed.

Lemma addWebModelDerivative_selected_witness :
  exists d,
    fst (selectDerivative Medium None
           (snd (addWebModelDerivative "medium.glb" Medium Examples.mLowHigh)))
    = Normal (Some d)
    /\ quality d = Medium
    /\ usage d = Web
    /\ (findIn Examples.mLowHigh.(derivatives) Medium Web = None ->
        d.(assets)
        = [{| uri := "medium.glb"; assetType := AssetModel; mapType := None |}]).
Proof.
  apply (addWebModelDerivative_selected "medium.glb" Medium Examples.mLowHigh).
  vm_compute. discriminate.
Defined.

(** ** loadDerivative *)

Section Loading.

Variable load : LoadingManager -> string -> Derivative -> LoadOutcome.

(** The state a load that resolves with a model leaves. *)
Lemma loadDerivative_resolved d m lm o bb :
  m.(loadingManager) = Some lm ->
  load lm m.(assetPath) d = LoadResolved {| d_model := Some o; d_boundingBox := bb |} ->
  let m1 :=
    set_loaded (<[d.(oid) := {| d_model := Some o; d_boundingBox := bb |}]> m.(loaded)) m in
  let c1 :=
    match m.(boxFrame) with
    | Some f => without f m.(children)
    | None => m.(children)
    end in
  let c2 :=
    match m.(activeDerivative) with
    | Some a =>
        match derivativeModel a m1 with
        | Some am => without am c1
        | None => c1
        end
    | None => c1
    end in
  let m' := snd (loadDerivative load d m) in
  fst (loadDerivative load d m)
  = Normal (match bb with
            | Some _ => Resolved tt
            | None => Rejected (TypeError "derivative.boundingBox is null")
            end)
  /\ m'.(activeDerivative) = Some d
  /\ m'.(boxFrame) = m.(boxFrame)
  /\ m'.(derivatives) = m.(derivatives)
  /\ m'.(children) = filter (fun c => c <> o) c2 ++ [o]
  /\ m'.(journal)
     = m.(journal) ++ [EvLoad d lm m.(assetPath)]
       ++ match m.(boxFrame) with Some f => [EvGeometryDispose f] | None => [] end
       ++ match m.(activeDerivative) with Some a => [EvDerivativeDispose a] | None => [] end
       ++ [EvEmit updateEvent].
Proof.
  intros H E. unfold loadDerivative, onLoaded.
  unfold bind at 1. unfold gets at 1. rewrite H.
  unfold bind at 1. unfold gets at 1.
  unfold bind at 1. unfold record at 1, modify at 1.
  cbn [assetPath set_journal]. rewrite E.
  destruct m; simpl in H; subst.
  unfold_ops. cbn [loaded set_loaded oid]. rewrite !lookup_insert_eq.
  cbn [d_model d_boundingBox].
  run; rewrite ?lookup_insert_eq in *; do 3 (simpl in *; simplify_eq);
    unfold without;
    repeat match goal with
      | Heq : (indexOf _ _ =? -1) = _ |- _ => rewrite Heq; clear Heq
      end;
    rewrite <- ?app_assoc; simpl; repeat split; reflexivity.
Qed.

(** X7.  A load that is rejected, or that resolves without a model,
    changes nothing but the journal entry of the load itself: the active
    derivative, the attached children, the bounding box and the box frame
    stay, and no update event is emitted. *)
Theorem loadDerivative_failed_keeps_model d m lm :
  m.(loadingManager) = Some lm ->
  (exists e, load lm m.(assetPath) d = LoadRejected e)
  \/ (exists bb, load lm m.(assetPath) d
                 = LoadResolved {| d_model := None; d_boundingBox := bb |}) ->
  (snd (loadDerivative load d m)).(activeDerivative) = m.(activeDerivative)
  /\ (snd (loadDerivative load d m)).(children) = m.(children)
  /\ (snd (loadDerivative load d m)).(boundingBox) = m.(boundingBox)
  /\ (snd (loadDerivative load d m)).(boxFrame) = m.(boxFrame)
  /\ (snd (loadDerivative load d m)).(journal)
     = m.(journal) ++ [EvLoad d lm m.(assetPath)].
Proof.
  intros H [[e E]|[bb E]].
  - rewrite (loadDerivative_rejected load d m lm e H E). repeat split.
  - unfold loadDerivative, onLoaded.
    unfold bind at 1. unfold gets at 1. rewrite H.
    unfold bind at 1. unfold gets at 1.
    unfold bind at 1. unfold record at 1, modify at 1.
    destruct m; simpl in H, E; subst.
    unfold_ops. simpl. rewrite E. simpl. rewrite !lookup_insert_eq.
    simpl. repeat split.
Qed.


Lemma without_absent c l : c ∉ l -> without c l = l.
Proof.
  intros H. unfold without, indexOf.
  rewrite (indexOf_from_absent c l 0 H). reflexivity.
Qed.

Lemma without_present c l1 l2 :
  c ∉ l1 -> without c (l1 ++ c :: l2) = l1 ++ l2.
Proof.
  intros H. unfold without, indexOf. rewrite indexOf_from_first by exact H.
  rewrite Z.add_0_l. destruct (Z.of_nat (length l1) =? -1) eqn:E.
  - apply Z.eqb_eq in E. lia.
  - apply splice_one.
Qed.

Lemma without_NoDup c l :
  NoDup l -> NoDup (without c l) /\ forall x, x ∈ without c l <-> x ∈ l /\ x <> c.
Proof.
  intros Hnd. destruct (decide (c ∈ l)) as [Hin|Hin].
  - apply list_elem_of_split_l in Hin as (l1 & l2 & -> & Hl1).
    rewrite without_present by exact Hl1.
    apply NoDup_app in Hnd as (Hn1 & Hdisj & Hn2).
    apply NoDup_cons in Hn2 as [Hc2 Hn2]. split.
    + apply NoDup_app. repeat split; try assumption.
      intros x Hx Hx2. apply (Hdisj x Hx). right. exact Hx2.
    + intros x. rewrite !elem_of_app, elem_of_cons. split.
      * intros [Hx|Hx]; (split; [tauto|]); intros ->; tauto.
      * intros [[Hx|[Hx|Hx]] Hne]; tauto.
  - rewrite without_absent by exact Hin. split; [exact Hnd|].
    intros x. split; [|tauto]. intros Hx. split; [exact Hx|].
    intros ->. tauto.
Qed.

(** X8.  A successful load detaches the model of the previously active
    derivative and attaches the new model as the last child; no child is
    ever held twice. *)
Theorem loadDerivative_detaches_previous d m lm o bb a am :
  m.(loadingManager) = Some lm ->
  load lm m.(assetPath) d = LoadResolved {| d_model := Some o; d_boundingBox := bb |} ->
  NoDup m.(children) ->
  m.(activeDerivative) = Some a ->
  a.(oid) <> d.(oid) ->
  derivativeModel a m = Some am ->
  am <> o ->
  (am ∉ (snd (loadDerivative load d m)).(children))
  /\ last (snd (loadDerivative load d m)).(children) = Some o
  /\ NoDup (snd (loadDerivative load d m)).(children)
  /\ (snd (loadDerivative load d m)).(activeDerivative) = Some d.
Proof.
  intros H E Hnd Ha Hoid Ham Hne.
  destruct (loadDerivative_resolved d m lm o bb H E)
    as (_ & Hact & _ & _ & Hch & _).
  rewrite Hch, Ha. unfold derivativeModel in *. cbn [loaded set_loaded].
  rewrite lookup_insert_ne by congruence.
  destruct (loaded m !! oid a) as [la|]; [|discriminate]. rewrite Ham.
  set (c1 := match boxFrame m with
             | Some f => without f (children m)
             | None => children m
             end).
  assert (NoDup c1) as Hc1.
  { subst c1. destruct (boxFrame m); [apply without_NoDup|]; exact Hnd. }
  destruct (without_NoDup am c1 Hc1) as [Hc2 Hmem].
  split; [|split; [|split]].
  - rewrite elem_of_app, list_elem_of_filter, Hmem, list_elem_of_singleton.
    tauto.
  - apply last_snoc.
  - apply NoDup_app. split; [apply NoDup_filter, Hc2|]. split.
    + intros x Hx Hx'. apply list_elem_of_filter in Hx as [Hx _].
      apply list_elem_of_singleton in Hx'. tauto.
    + apply NoDup_singleton.
  - exact Hact.
Qed.


(** X9.  The box frame is not forgotten once its geometry is disposed:
    every load that resolves with a model disposes the geometry of the
    frame once more and keeps the reference. *)
Theorem loadDerivative_disposes_frame_again d m lm o bb f :
  m.(loadingManager) = Some lm ->
  load lm m.(assetPath) d = LoadResolved {| d_model := Some o; d_boundingBox := bb |} ->
  m.(boxFrame) = Some f ->
  (snd (loadDerivative load d m)).(boxFrame) = Some f
  /\ geometryDisposals f (snd (loadDerivative load d m)).(journal)
     = S (geometryDisposals f m.(journal)).
Proof.
  intros H E Hf.
  destruct (loadDerivative_resolved d m lm o bb H E)
    as (_ & _ & Hbf & _ & _ & Hj).
  rewrite Hbf, Hj, Hf. split; [reflexivity|].
  unfold geometryDisposals. rewrite !filter_app, !length_app.
  rewrite (filter_cons_True _ (EvGeometryDispose f)) by reflexivity.
  rewrite (filter_cons_False _ (EvLoad _ _ _)) by discriminate.
  rewrite (filter_cons_False _ (EvEmit _)) by discriminate.
  destruct (activeDerivative m);
    rewrite ?(filter_cons_False _ (EvDerivativeDispose _)) by discriminate;
    rewrite !filter_nil; simpl; lia.
Qed.


(** X10.  When the load resolves with a model but without a bounding box,
    the promise of [loadDerivative] is rejected (the callback fails on
    [bb.min]) although the swap has already happened: the derivative is
    active, its model attached and the update event emitted. *)
Theorem loadDerivative_without_box_rejects_after_swap d m lm o :
  m.(loadingManager) = Some lm ->
  load lm m.(assetPath) d = LoadResolved {| d_model := Some o; d_boundingBox := None |} ->
  (exists e, fst (loadDerivative load d m) = Normal (Rejected (TypeError e)))
  /\ (snd (loadDerivative load d m)).(activeDerivative) = Some d
  /\ last (snd (loadDerivative load d m)).(children) = Some o
  /\ last (snd (loadDerivative load d m)).(journal) = Some (EvEmit updateEvent).
Proof.
  intros H E.
  destruct (loadDerivative_resolved d m lm o None H E)
    as (Hres & Hact & _ & _ & Hch & Hj).
  split; [eauto|]. split; [exact Hact|]. split.
  - rewrite Hch. apply last_snoc.
  - rewrite Hj, !app_assoc. apply last_snoc.
Qed.


(** X11.  Loading the derivative that is already active disposes it and
    leaves it active: its [dispose] is the last thing that happens before
    the update event. *)
Theorem loadDerivative_reload_disposes_active d m lm o bb :
  m.(loadingManager) = Some lm ->
  load lm m.(assetPath) d = LoadResolved {| d_model := Some o; d_boundingBox := bb |} ->
  m.(activeDerivative) = Some d ->
  (snd (loadDerivative load d m)).(activeDerivative) = Some d
  /\ exists j, (snd (loadDerivative load d m)).(journal)
               = j ++ [EvDerivativeDispose d; EvEmit updateEvent].
Proof.
  intros H E Ha.
  destruct (loadDerivative_resolved d m lm o bb H E)
    as (_ & Hact & _ & _ & _ & Hj).
  split; [exact Hact|]. rewrite Hj, Ha.
  eexists. rewrite !app_assoc. rewrite <- (app_assoc _ [_] [_]). reflexivity.
Qed.


End Loading.

Lemma loadDerivative_failed_keeps_model_witness :
  (snd (loadDerivative MoreExamples.loadEmpty Examples.dHigh Examples.mHighReady)).(activeDerivative)
  = None
  /\ (snd (loadDerivative MoreExamples.loadEmpty Examples.dHigh Examples.mHighReady)).(children)
     = []
  /\ (snd (loadDerivative MoreExamples.loadEmpty Examples.dHigh Examples.mHighReady)).(boundingBox)
     = Some newBox3
  /\ (snd (loadDerivative MoreExamples.loadEmpty Examples.dHigh Examples.mHighReady)).(boxFrame)
     = None
  /\ (snd (loadDerivative MoreExamples.loadEmpty Examples.dHigh Examples.mHighReady)).(journal)
     = [EvLoad Examples.dHigh 7%nat ""].
Proof.
  apply (loadDerivative_failed_keeps_model MoreExamples.loadEmpty Examples.dHigh Examples.mHighReady 7%nat).
  - reflexivity.
  - right. exists None. reflexivity.
Defined.

Lemma loadDerivative_detaches_previous_witness :
  (110%nat ∉ (snd (loadDerivative Examples.loadAll Examples.dHigh
                     (snd (loadDerivative Examples.loadAll Examples.dThumb
                             Examples.mThumbHighReady)))).(children))
  /\ last (snd (loadDerivative Examples.loadAll Examples.dHigh
                   (snd (loadDerivative Examples.loadAll Examples.dThumb
                           Examples.mThumbHighReady)))).(children)
     = Some 112%nat
  /\ NoDup (snd (loadDerivative Examples.loadAll Examples.dHigh
                   (snd (loadDerivative Examples.loadAll Examples.dThumb
                           Examples.mThumbHighReady)))).(children)
  /\ (snd (loadDerivative Examples.loadAll Examples.dHigh
             (snd (loadDerivative Examples.loadAll Examples.dThumb
                     Examples.mThumbHighReady)))).(activeDerivative)
     = Some Examples.dHigh.
Proof.
  apply (loadDerivative_detaches_previous Examples.loadAll Examples.dHigh
           (snd (loadDerivative Examples.loadAll Examples.dThumb
                   Examples.mThumbHighReady))
           7%nat 112%nat (Some Examples.unitBox) Examples.dThumb 110%nat).
  - reflexivity.
  - reflexivity.
  - vm_compute. apply NoDup_singleton.
  - reflexivity.
  - vm_compute. lia.
  - reflexivity.
  - lia.
Defined.

Lemma loadDerivative_disposes_frame_again_witness :
  (snd (loadDerivative Examples.loadAll MoreExamples.dInflated
          MoreExamples.mFramed)).(boxFrame)
  = Some 1%nat
  /\ geometryDisposals 1%nat
       (snd (loadDerivative Examples.loadAll MoreExamples.dInflated
               MoreExamples.mFramed)).(journal)
     = 1%nat.
Proof.
  apply (loadDerivative_disposes_frame_again Examples.loadAll
           MoreExamples.dInflated MoreExamples.mFramed
           7%nat 100%nat (Some Examples.unitBox) 1%nat); reflexivity.
Defined.

Lemma loadDerivative_without_box_rejects_after_swap_witness :
  (exists e, fst (loadDerivative MoreExamples.loadBare Examples.dHigh Examples.mHighReady)
             = Normal (Rejected (TypeError e)))
  /\ (snd (loadDerivative MoreExamples.loadBare Examples.dHigh Examples.mHighReady)).(activeDerivative)
     = Some Examples.dHigh
  /\ last (snd (loadDerivative MoreExamples.loadBare Examples.dHigh Examples.mHighReady)).(children)
     = Some 112%nat
  /\ last (snd (loadDerivative MoreExamples.loadBare Examples.dHigh Examples.mHighReady)).(journal)
     = Some (EvEmit updateEvent).
Proof.
  apply (loadDerivative_without_box_rejects_after_swap MoreExamples.loadBare Examples.dHigh
           Examples.mHighReady 7%nat 112%nat); reflexivity.
Defined.

Lemma loadDerivative_reload_disposes_active_witness :
  (snd (loadDerivative Examples.loadAll Examples.dHigh Examples.mActive)).(activeDerivative)
  = Some Examples.dHigh
  /\ exists j, (snd (loadDerivative Examples.loadAll Examples.dHigh Examples.mActive)).(journal)
               = j ++ [EvDerivativeDispose Examples.dHigh; EvEmit updateEvent].
Proof.
  apply (loadDerivative_reload_disposes_active Examples.loadAll Examples.dHigh Examples.mActive
           7%nat 112%nat (Some Examples.unitBox)); reflexivity.
Defined.

(** ** autoLoad and update *)

Section AutoLoad.

Variable load : LoadingManager -> string -> Derivative -> LoadOutcome.
Variable compose : Vector3 -> Vector3 -> Matrix4.

(** X12.  Without a loading manager [autoLoad] (for a supported quality)
    returns a rejected promise and leaves the model as it is: no load is
    issued and nothing is thrown. *)
Theorem autoLoad_without_manager q m :
  0 <= indexOf q _qualityLevels ->
  m.(loadingManager) = None ->
  exists e, autoLoad load q m = (Normal (Rejected e), m).
Proof.
  intros Hq Hlm. rewrite autoLoad_run by exact Hq.
  destruct (findIn _ Thumb Web), (selectDerivative_spec _ q Web);
    rewrite ?thenLoad_without_manager by exact Hlm; eauto.
Qed.

Lemma selectDerivative_spec_answer ds q u d :
  supported q ->
  selectDerivative_spec ds q u = Some d ->
  exactMatch ds (quality d) u = Some d /\ supported (quality d).
Proof.
  intros [n Hn] Hsel.
  destruct q; try discriminate Hn; clear Hn;
    unfold selectDerivative_spec, firstMatch in Hsel; simpl in Hsel;
    repeat match type of Hsel with
      | context [exactMatch ?a ?b ?c] =>
          let E := fresh "E" in
          destruct (exactMatch a b c) eqn:E; simpl in Hsel;
          [ injection Hsel as ->;
            pose proof (exactMatch_sound _ _ _ _ E) as (_ & _ & ->);
            split; [exact E|unfold supported; simpl; eauto]
          | clear E ]
      end;
    discriminate Hsel.
Qed.

(** X13.  When the thumbnail is also what [selectDerivative] answers
    with (Thumb is requested, or no other supported Web derivative
    exists), the load sequence holds the thumbnail twice. *)
Theorem loadSequence_thumb_twice q m t :
  0 <= indexOf q _qualityLevels ->
  findIn m.(derivatives) Thumb Web = Some t ->
  q = Thumb
  \/ (forall d, d ∈ m.(derivatives) -> usage d = Web ->
                supported (quality d) -> quality d = Thumb) ->
  loadSequence q m = (Normal [t; t], m).
Proof.
  intros Hq Ht Hcase. rewrite loadSequence_run by exact Hq. rewrite Ht.
  assert (selectDerivative_spec (derivatives m) q Web = Some t) as ->;
    [|reflexivity].
  rewrite findIn_exactMatch in Ht.
  destruct Hcase as [->|Honly].
  - unfold selectDerivative_spec. rewrite Ht. reflexivity.
  - apply supported_indexOf in Hq.
    destruct (thumb_selectable (derivatives m) q t Hq) as [d Hd];
      [rewrite findIn_exactMatch; exact Ht|].
    destruct (selectDerivative_spec_answer _ _ _ _ Hq Hd) as [Hans Hs].
    pose proof (exactMatch_sound _ _ _ _ Hans) as (Hin & Hu & _).
    rewrite (Honly d Hin Hu Hs) in Hans. congruence.
Qed.

(** X14.  With a derivative active, or with auto-load off, an update tick
    loads nothing: it returns true and touches at most the matrix. *)
Theorem update_gate_closed q autoLoadValue poseChanged m :
  is_Some m.(activeDerivative) \/ autoLoadValue = false ->
  update load compose q autoLoadValue poseChanged m
  = (Normal true,
     if poseChanged then
       set_matrix (compose m.(position) m.(rotation)) m.(matrixWorldNeedsUpdate) m
     else m).
Proof.
  intros Hgate. unfold update, bind, gets, ret, modify.
  destruct (activeDerivative m) as [a|] eqn:Ha.
  - destruct poseChanged; reflexivity.
  - destruct Hgate as [[a Hsome]| ->]; [discriminate|].
    destruct poseChanged; reflexivity.
Qed.

(** X15.  For a supported quality an update tick never fails, whatever
    the loader does: rejected loads are swallowed and the result is
    true. *)
Theorem update_supported_returns_true q autoLoadValue poseChanged m :
  0 <= indexOf q _qualityLevels ->
  fst (update load compose q autoLoadValue poseChanged m) = Normal true.
Proof.
  intros Hq. unfold update. unfold bind at 1. unfold bind at 1.
  unfold gets at 1.
  assert (exists p, fst (autoLoad load q m) = Normal p) as [p Hp].
  { rewrite autoLoad_run by exact Hq.
    destruct (findIn _ Thumb Web) as [t|], (selectDerivative_spec _ q Web) as [d|].
    - destruct (thenLoad_settles load t m) as [p1 Hp1].
      destruct (thenLoadDerivative load (Resolved tt) t m) as [c m1].
      simpl in Hp1. subst c.
      destruct p1 as [[]|e]; [apply thenLoad_settles|simpl; eauto].
    - apply thenLoad_settles.
    - apply thenLoad_settles.
    - simpl. eauto. }
  destruct (activeDerivative m); [|destruct autoLoadValue].
  - unfold bind, ret, modify. destruct poseChanged; reflexivity.
  - unfold bind at 1. destruct (autoLoad load q m) as [c m1]. simpl in Hp.
    subst c. unfold bind, ret, modify. destruct poseChanged; reflexivity.
  - unfold bind, ret, modify. destruct poseChanged; reflexivity.
Qed.

End AutoLoad.

Lemma autoLoad_without_manager_witness :
  exists e,
    autoLoad Examples.loadAll High Examples.mThumbHigh
    = (Normal (Rejected e), Examples.mThumbHigh).
Proof.
  apply (autoLoad_without_manager Examples.loadAll High Examples.mThumbHigh).
  - vm_compute. discriminate.
  - reflexivity.
Defined.

Lemma loadSequence_thumb_twice_witness :
  loadSequence High MoreExamples.mThumbReady
  = (Normal [Examples.dThumb; Examples.dThumb], MoreExamples.mThumbReady).
Proof.
  apply (loadSequence_thumb_twice High MoreExamples.mThumbReady Examples.dThumb).
  - vm_compute. discriminate.
  - reflexivity.
  - right. intros d Hd _ _.
    apply list_elem_of_singleton in Hd. subst d. reflexivity.
Defined.

Lemma update_gate_closed_witness :
  update Examples.loadAll Examples.idPose High true false Examples.mActive
  = (Normal true, Examples.mActive).
Proof.
  apply (update_gate_closed Examples.loadAll Examples.idPose High true false
           Examples.mActive).
  left. vm_compute. eauto.
Defined.

Lemma update_supported_returns_true_witness :
  fst (update Examples.loadNoThumb Examples.idPose High true true
         Examples.mThumbHighReady)
  = Normal true.
Proof.
  apply (update_supported_returns_true Examples.loadNoThumb Examples.idPose
           High true true Examples.mThumbHighReady).
  vm_compute. discriminate.
Defined.

(** ** fromData and toData *)

Section Inflate.

Variable decompose : Matrix4 -> Vector3 * Vector3.

(** The loop of [fromData] over the derivatives of the data. *)
Lemma forEach_inflate (l : list IDerivative) m :
  exists ds,
    forEach l
      (fun derivativeData =>
         bind (newDerivative derivativeData.(data_usage)
                 derivativeData.(data_quality) derivativeData.(data_assets))
           (fun d => addDerivative d)) m
    = (Normal tt,
       set_nextOid (m.(nextOid) + length l)%nat
         (set_derivatives (m.(derivatives) ++ ds) m))
    /\ map descriptor ds = map dataDescriptor l.
Proof.
  revert m. induction l as [|x l IH]; intros m.
  - exists []. split; [|reflexivity]. simpl. unfold ret.
    rewrite app_nil_r, Nat.add_0_r. destruct m; reflexivity.
  - set (d0 := {| oid := m.(nextOid); usage := x.(data_usage);
                  quality := x.(data_quality); assets := x.(data_assets) |}).
    destruct (IH (set_derivatives (m.(derivatives) ++ [d0])
                    (set_nextOid (S m.(nextOid)) m)))
      as (ds & Hrun & Hds).
    exists (d0 :: ds). split.
    + cbn [forEach]. unfold bind at 1.
      change (bind (newDerivative (data_usage x) (data_quality x) (data_assets x))
                (fun d => addDerivative d) m)
        with (@Normal unit tt,
              set_derivatives (m.(derivatives) ++ [d0])
                (set_nextOid (S m.(nextOid)) m)).
      cbv iota beta. rewrite Hrun.
      destruct m. simpl. rewrite <- app_assoc, Nat.add_succ_r. reflexivity.
    + simpl. rewrite Hds. reflexivity.
Qed.

(** What [fromData] leaves of a model that had no derivatives and whose
    [boundingBox] field holds a box. *)
Lemma fromData_without_derivatives modelData m b :
  m.(derivatives) = [] ->
  m.(boundingBox) = Some b ->
  let m' := snd (fromData decompose modelData m) in
  fst (fromData decompose modelData m) = Normal tt
  /\ m'.(units) = modelData.(data_units)
  /\ map descriptor m'.(derivatives)
     = map dataDescriptor modelData.(data_derivatives)
  /\ m'.(matrix)
     = match modelData.(data_transform) with Some t => t | None => m.(matrix) end
  /\ match modelData.(data_boundingBox) with
     | Some bb =>
         m'.(boundingBox) = Some {| min := bb.(data_min); max := bb.(data_max) |}
         /\ m'.(boxFrame) = Some (m.(nextOid) + length modelData.(data_derivatives))%nat
         /\ last m'.(children)
            = Some (m.(nextOid) + length modelData.(data_derivatives))%nat
         /\ m'.(journal) = m.(journal) ++ [EvEmit updateEvent]
     | None =>
         m'.(boundingBox) = Some b
         /\ m'.(boxFrame) = m.(boxFrame)
         /\ m'.(children) = m.(children)
         /\ m'.(journal) = m.(journal)
     end.
Proof.
  intros Hds Hb m'. subst m'.
  set (r := fromData decompose modelData m).
  assert (r = fromData decompose modelData m) as Er by reflexivity.
  clearbody r. unfold fromData in Er.
  unfold bind at 1 in Er. unfold modify at 1 in Er.
  unfold bind at 1 in Er. unfold gets at 1 in Er.
  cbn [derivatives set_units] in Er. rewrite Hds in Er.
  unfold bind at 1 in Er. cbn [length Nat.ltb Nat.leb] in Er.
  unfold ret at 1 in Er. unfold bind at 1 in Er.
  destruct (forEach_inflate modelData.(data_derivatives)
              (set_units modelData.(data_units) m)) as (ds & Hrun & Hdesc).
  rewrite Hrun in Er. clear Hrun.
  destruct m; simpl in Hds, Hb; subst derivatives0 boundingBox0.
  unfold updatePropsFromMatrix, addChild, emit, record, fresh, bind, ret,
    modify, gets, throw in Er.
  destruct modelData as [du dd [t|] [bb|]]; simpl in *;
    try destruct (decompose t); simpl in *; subst r; simpl;
    repeat split; try assumption; try reflexivity; apply last_snoc.
Qed.

(** X16.  Inflating a model without derivatives succeeds and gives it
    exactly the derivatives of the data, in order, with their usage,
    quality and assets, the units of the data, and the transform of the
    data if there is one. *)
Theorem fromData_inflates modelData m :
  m.(derivatives) = [] ->
  boxed m ->
  fst (fromData decompose modelData m) = Normal tt
  /\ (snd (fromData decompose modelData m)).(units) = modelData.(data_units)
  /\ map descriptor (snd (fromData decompose modelData m)).(derivatives)
     = map dataDescriptor modelData.(data_derivatives)
  /\ (snd (fromData decompose modelData m)).(matrix)
     = match modelData.(data_transform) with Some t => t | None => m.(matrix) end.
Proof.
  intros Hds [b Hb].
  destruct (fromData_without_derivatives modelData m b Hds Hb) as (H1 & H2 & H3 & H4 & _).
  auto.
Qed.

(** X17.  Only data with a bounding box makes [fromData] announce a
    change: it then stores the box, attaches a new box frame as the last
    child and emits one update event; without a bounding box the box, the
    frame, the children and the journal stay as they were. *)
Theorem fromData_bounding_box modelData m :
  m.(derivatives) = [] ->
  boxed m ->
  match modelData.(data_boundingBox) with
  | Some bb =>
      (snd (fromData decompose modelData m)).(boundingBox)
      = Some {| min := bb.(data_min); max := bb.(data_max) |}
      /\ (exists f,
            (snd (fromData decompose modelData m)).(boxFrame) = Some f
            /\ last (snd (fromData decompose modelData m)).(children) = Some f)
      /\ (snd (fromData decompose modelData m)).(journal)
         = m.(journal) ++ [EvEmit updateEvent]
  | None =>
      (snd (fromData decompose modelData m)).(boundingBox) = m.(boundingBox)
      /\ (snd (fromData decompose modelData m)).(boxFrame) = m.(boxFrame)
      /\ (snd (fromData decompose modelData m)).(children) = m.(children)
      /\ (snd (fromData decompose modelData m)).(journal) = m.(journal)
  end.
Proof.
  intros Hds [b Hb].
  destruct (fromData_without_derivatives modelData m b Hds Hb) as (_ & _ & _ & _ & H).
  destruct (data_boundingBox modelData) as [bb|].
  - destruct H as (H1 & H2 & H3 & H4). eauto 10.
  - rewrite Hb. exact H.
Qed.

Variable derivativeToData : Derivative -> IDerivative.
Variable isMatrix4Identity : Matrix4 -> bool.

(** X18.  [toData] followed by [fromData] on a new model: the new model
    has the units and the bounding box of the old one and one derivative
    for each derivative of the old one, in order, built from what
    [derivative.toData()] wrote; [toData] itself changes nothing. *)
Theorem toData_fromData m b :
  m.(boundingBox) = Some b ->
  exists data,
    toData derivativeToData isMatrix4Identity m = (Normal data, m)
    /\ fst (fromData decompose data initial) = Normal tt
    /\ (snd (fromData decompose data initial)).(units) = m.(units)
    /\ (snd (fromData decompose data initial)).(boundingBox) = Some b
    /\ map descriptor (snd (fromData decompose data initial)).(derivatives)
       = map (fun d => dataDescriptor (derivativeToData d)) m.(derivatives).
Proof.
  intros Hb.
  assert (exists data,
            toData derivativeToData isMatrix4Identity m = (Normal data, m)
            /\ data.(data_units) = m.(units)
            /\ data.(data_derivatives) = map derivativeToData m.(derivatives)
            /\ data.(data_boundingBox)
               = Some {| data_min := b.(min); data_max := b.(max) |})
    as (data & Hrun & Hu & Hd & Hbb).
  { unfold toData, bind, gets, ret. cbn [id]. rewrite Hb.
    destruct (isMatrix4Identity (matrix m)); cbn [negb];
      eexists; repeat split. }
  exists data. split; [exact Hrun|].
  destruct (fromData_without_derivatives data initial newBox3 eq_refl eq_refl)
    as (H1 & H2 & H3 & _ & H5).
  rewrite Hbb in H5. destruct H5 as [H5 _].
  rewrite H2, H3, H5, Hu, Hd, map_map. destruct b. repeat split; assumption.
Qed.

End Inflate.

Lemma fromData_inflates_witness :
  fst (fromData Examples.noPose MoreExamples.boxedData initial) = Normal tt
  /\ (snd (fromData Examples.noPose MoreExamples.boxedData initial)).(units) = "mm"
  /\ map descriptor (snd (fromData Examples.noPose MoreExamples.boxedData initial)).(derivatives)
     = [(Web, Medium, Examples.glb "m.glb")]
  /\ (snd (fromData Examples.noPose MoreExamples.boxedData initial)).(matrix)
     = identityMatrix.
Proof.
  apply (fromData_inflates Examples.noPose MoreExamples.boxedData initial).
  - reflexivity.
  - vm_compute. eauto.
Defined.

Lemma fromData_bounding_box_witness :
  (snd (fromData Examples.noPose MoreExamples.boxedData initial)).(boundingBox)
  = Some Examples.unitBox
  /\ (exists f,
        (snd (fromData Examples.noPose MoreExamples.boxedData initial)).(boxFrame)
        = Some f
        /\ last (snd (fromData Examples.noPose MoreExamples.boxedData initial)).(children)
           = Some f)
  /\ (snd (fromData Examples.noPose MoreExamples.boxedData initial)).(journal)
     = [EvEmit updateEvent].
Proof.
  apply (fromData_bounding_box Examples.noPose MoreExamples.boxedData initial).
  - reflexivity.
  - vm_compute. eauto.
Defined.

Lemma toData_fromData_witness :
  exists data,
    toData MoreExamples.describe MoreExamples.neverIdentity Examples.mLowHigh
    = (Normal data, Examples.mLowHigh)
    /\ fst (fromData Examples.noPose data initial) = Normal tt
    /\ (snd (fromData Examples.noPose data initial)).(units) = "cm"
    /\ (snd (fromData Examples.noPose data initial)).(boundingBox) = Some newBox3
    /\ map descriptor (snd (fromData Examples.noPose data initial)).(derivatives)
       = [descriptor Examples.dLow; descriptor Examples.dHigh].
Proof.
  apply (toData_fromData Examples.noPose MoreExamples.describe
           MoreExamples.neverIdentity Examples.mLowHigh newBox3).
  reflexivity.
Defined.

End ModelExtra.

(** * Further properties of CVDocument *)

Module CVDocumentExtra.

Import CVDocumentTs CVDocumentMore.

(** ** Strings *)

Lemma substring_prefix (p s : string) :
  String.substring 0 (String.length p) s = p -> exists rest, s = (p ++ rest)%string.
Proof.
  revert s. induction p as [|c p IH]; intros s H.
  - exists s. reflexivity.
  - destruct s as [|c' s]; simpl in H; [discriminate|].
    injection H as -> H. destruct (IH s H) as [rest ->].
    exists rest. reflexivity.
Qed.

Lemma substring_split (m : nat) (s p : string) :
  String.substring m (String.length p) s = p ->
  exists rest, s = (String.substring 0 m s ++ p ++ rest)%string.
Proof.
  revert s. induction m as [|m IH]; intros s H.
  - destruct (substring_prefix p s H) as [rest ->]. exists rest.
    destruct (p ++ rest)%string; reflexivity.
  - destruct s as [|c s].
    + simpl in H. destruct p; simpl in H; [|discriminate]. exists EmptyString.
      reflexivity.
    + simpl in H. destruct (IH s H) as [rest E]. exists rest.
      change (String c s
              = String c (String.substring 0 m s ++ p ++ rest)%string).
      f_equal. exact E.
Qed.

Lemma substring_front (p rest : string) :
  String.substring 0 (String.length p) (p ++ rest) = p.
Proof.
  induction p as [|c p IHp]; simpl.
  - destruct rest; reflexivity.
  - rewrite IHp. reflexivity.
Qed.

Lemma substring_middle (pre p rest : string) :
  String.substring (String.length pre) (String.length p) (pre ++ p ++ rest) = p.
Proof.
  induction pre as [|c pre IH]; [exact (substring_front p rest)|exact IH].
Qed.

Lemma substring_length_le (n : nat) (s : string) :
  (String.length (String.substring 0 n s) <= n)%nat.
Proof.
  revert s. induction n as [|n IH]; intros [|c s]; simpl; try lia.
  specialize (IH s). lia.
Qed.

(** X19.  [assetBaseName] is the asset path up to the first occurrence of
    "document.json": the path is the base name, then "document.json", then
    a rest, and no occurrence starts earlier; a path without
    "document.json" is its own base name.  The component is not
    changed. *)
Theorem assetBaseName_first_occurrence s :
  exists base,
    assetBaseName s = (Normal base, s)
    /\ ((exists rest,
           s.(assetPath) = (base ++ "document.json" ++ rest)%string
           /\ forall pre rest',
                s.(assetPath) = (pre ++ "document.json" ++ rest')%string ->
                (String.length base <= String.length pre)%nat)
        \/ (base = s.(assetPath)
            /\ forall pre rest',
                 s.(assetPath) <> (pre ++ "document.json" ++ rest')%string)).
Proof.
  exists (baseNameOf s.(assetPath)). split; [reflexivity|].
  unfold baseNameOf.
  destruct (String.index 0 "document.json" (assetPath s)) as [i|] eqn:E.
  - left. pose proof (index_correct1 _ _ _ _ E) as Hat.
    destruct (substring_split i _ "document.json" Hat) as [rest Hrest].
    exists rest. split; [exact Hrest|].
    intros pre rest' Hpre.
    pose proof (substring_length_le i (assetPath s)) as Hle.
    destruct (le_lt_dec i (String.length pre)) as [Hi|Hi]; [lia|].
    exfalso.
    apply (index_correct2 _ _ _ _ E (String.length pre)); [lia|lia|].
    rewrite Hpre. apply (substring_middle pre "document.json" rest').
  - right. split; [reflexivity|]. intros pre rest' Hpre.
    apply (index_correct3 _ (String.length pre) _ _ E); [discriminate|lia|].
    rewrite Hpre. apply (substring_middle pre "document.json" rest').
Qed.

(** ** The download file name *)

Lemma split_nonempty (sep : Ascii.ascii) (s : string) : split sep s <> [].
Proof.
  destruct s as [|c s]; simpl; [discriminate|].
  destruct (Ascii.eqb c sep); [discriminate|].
  destruct (split sep s); discriminate.
Qed.

Lemma split_single (sep : Ascii.ascii) (s piece : string) :
  split sep s = [piece] -> s = piece /\ (sep ∉ list_ascii_of_string s).
Proof.
  revert piece. induction s as [|a s IH]; intros piece H; simpl in *.
  - split; [congruence|apply not_elem_of_nil].
  - destruct (Ascii.eqb a sep) eqn:Ea.
    + pose proof (split_nonempty sep s) as Hne. inversion H. congruence.
    + apply Ascii.eqb_neq in Ea. revert H.
      destruct (split sep s) as [|h [|h' t]] eqn:Es; intros H;
        [exfalso; exact (split_nonempty sep s Es)| |discriminate].
      destruct (IH h eq_refl) as [-> Hs].
      split; [congruence|]. apply not_elem_of_cons. auto.
Qed.

Lemma chars_append_sep (sep : Ascii.ascii) (pre rest : string) :
  sep ∈ list_ascii_of_string ((pre ++ String sep EmptyString) ++ rest).
Proof.
  induction pre as [|a pre IH]; simpl.
  - left.
  - right. exact IH.
Qed.

Lemma split_last (sep : Ascii.ascii) (s : string) :
  exists pre piece,
    last (split sep s) = Some piece
    /\ s = (pre ++ piece)%string
    /\ (sep ∉ list_ascii_of_string piece)
    /\ ((pre = EmptyString /\ split sep s = [piece])
        \/ (exists pre', pre = (pre' ++ String sep EmptyString)%string)).
Proof.
  induction s as [|c s IH].
  - exists EmptyString, EmptyString. simpl. repeat split; [|auto].
    apply not_elem_of_nil.
  - destruct IH as (pre & piece & Hlast & Hs & Hsep & Hpre). simpl.
    destruct (Ascii.eqb c sep) eqn:Ec.
    + apply Ascii.eqb_eq in Ec. subst c.
      exists (String sep pre), piece. split; [|split; [|split]].
      * destruct (split sep s); [discriminate|exact Hlast].
      * simpl. rewrite Hs. reflexivity.
      * exact Hsep.
      * right. destruct Hpre as [[-> _]|[pre' ->]].
        -- exists EmptyString. reflexivity.
        -- exists (String sep pre'). reflexivity.
    + apply Ascii.eqb_neq in Ec.
      destruct Hpre as [[-> Hone]|[pre' ->]].
      * rewrite Hone. exists EmptyString, (String c piece). simpl in Hs.
        subst s. simpl. repeat split; [|auto].
        apply not_elem_of_cons. auto.
      * destruct (split sep s) as [|h [|h' t]] eqn:Esp.
        -- exfalso. exact (split_nonempty sep s Esp).
        -- exfalso. apply split_single in Esp as [_ Hno].
           apply Hno. rewrite Hs. apply chars_append_sep.
        -- exists (String c (pre' ++ String sep EmptyString)), piece.
           split; [exact Hlast|]. split; [simpl; rewrite Hs; reflexivity|].
           split; [exact Hsep|]. right. exists (String c pre'). reflexivity.
Qed.

(** X20.  The file name a download uses is never empty and holds no "/":
    it is what follows the last "/" of the asset path (the whole path if
    there is none), and "voyager-document.json" when nothing follows it
    or the path is empty. *)
Theorem downloadFileName_last_segment (path : string) :
  downloadFileName path <> EmptyString
  /\ (slash ∉ list_ascii_of_string (downloadFileName path))
  /\ exists dir piece,
       path = (dir ++ piece)%string
       /\ (dir = EmptyString \/ exists dir', dir = (dir' ++ "/")%string)
       /\ (slash ∉ list_ascii_of_string piece)
       /\ downloadFileName path
          = if String.eqb piece "" then "voyager-document.json" else piece.
Proof.
  destruct (split_last slash path) as (pre & piece & Hlast & Hs & Hsep & Hpre).
  unfold downloadFileName. rewrite Hlast.
  assert (slash ∉ list_ascii_of_string "voyager-document.json") as Hdef.
  { apply (bool_decide_unpack _). vm_compute. reflexivity. }
  split; [|split].
  - destruct piece; discriminate.
  - destruct piece; [exact Hdef|exact Hsep].
  - exists pre, piece. split; [exact Hs|]. split; [|split; [exact Hsep|]].
    + destruct Hpre as [[-> _]|[pre' ->]]; [auto|]. right. exists pre'.
      reflexivity.
    + destruct piece; reflexivity.
Qed.

Section Guards.

Variable validate : IDocument -> bool.
Variable isEmpty : CVDocument -> bool.
Variable sceneFromDocument nodeFromDocument :
  NodeRef -> IDocument -> nat -> PathToComponent -> M CVDocument PathToComponent.
Variable getAssetName : string -> string.
Variable INodeComponents : Type.
Variable rootToDocument :
  CVDocument -> IDocument -> ComponentToPath -> option INodeComponents ->
  IDocument * nat.

(** X21.  On an empty document an update tick that is to dump the JSON or
    to download throws the serialisation error and changes nothing; a
    tick with neither (also one that only dumps the tree) returns true
    without a download. *)
Theorem update_empty_document dumpJson dumpTree download s :
  isEmpty s = true ->
  update isEmpty INodeComponents rootToDocument dumpJson dumpTree download s
  = if dumpJson || download then
      (Throw (MkError "empty document, can't serialize"), s)
    else (Normal (true, None), s).
Proof.
  intros H. unfold update, deflateDocument, bind, gets, ret, throw.
  destruct dumpJson, download; simpl; rewrite ?H; reflexivity.
Qed.

(** X22.  A valid document merged into a node of another graph: the
    parent check throws, and since a merge never clears the tree the
    component is exactly as before. *)
Theorem openDocument_foreign_merge_parent documentData assetPath n s :
  validate documentData = true ->
  n.(graph) <> s.(innerGraph) ->
  openDocument validate sceneFromDocument nodeFromDocument getAssetName
    documentData assetPath (MergeObject n) s
  = (Throw (MkError "invalid parent node"), s).
Proof.
  intros Hv Hg. unfold openDocument, bind, gets, ret, throw. rewrite Hv.
  simpl. rewrite bool_decide_eq_true_2 by exact Hg. reflexivity.
Qed.

(** X23.  The emptiness check does not depend on the parent: on an empty
    document [appendModel] and [appendGeometry] throw also for a parent
    that belongs to the graph, and change nothing. *)
Theorem append_empty_document assetPath colorMap occlusionMap normalMap
    quality parent s :
  isEmpty s = true ->
  (forall p, parent = Some p -> p.(graph) = s.(innerGraph)) ->
  appendModel isEmpty assetPath quality parent s
  = (Throw (MkError "empty document, can't append model"), s)
  /\ appendGeometry isEmpty assetPath colorMap occlusionMap normalMap quality
       parent s
     = (Throw (MkError "empty document, can't append geometry"), s).
Proof.
  intros H Hp. unfold appendModel, appendGeometry, bind, gets, ret, throw.
  simpl. destruct parent as [p|].
  - rewrite bool_decide_eq_false_2 by (intros Hne; apply Hne, Hp; reflexivity).
    rewrite H. split; reflexivity.
  - rewrite H. split; reflexivity.
Qed.

End Guards.

Lemma update_empty_document_witness :
  update DocExamples.rootHasNoContent unit DocExamples.exportScene
    false true true DocExamples.newDocument
  = (Throw (MkError "empty document, can't serialize"), DocExamples.newDocument).
Proof.
  apply (update_empty_document DocExamples.rootHasNoContent unit
           DocExamples.exportScene false true true DocExamples.newDocument).
  reflexivity.
Defined.

Lemma openDocument_foreign_merge_parent_witness :
  openDocument DocExamples.validateType DocExamples.markImported
    DocExamples.markImported DocExamples.fileName
    DocExamples.twoRoots (Some "new/document.json")
    (MergeObject DocExamples.foreignNode) DocExamples.populated
  = (Throw (MkError "invalid parent node"), DocExamples.populated).
Proof.
  apply (openDocument_foreign_merge_parent DocExamples.validateType).
  - reflexivity.
  - simpl. lia.
Defined.

Lemma append_empty_document_witness :
  appendModel DocExamples.rootHasNoContent "model.glb" None
    (Some (rootRef DocExamples.newDocument)) DocExamples.newDocument
  = (Throw (MkError "empty document, can't append model"), DocExamples.newDocument)
  /\ appendGeometry DocExamples.rootHasNoContent "model.glb" None None None None
       (Some (rootRef DocExamples.newDocument)) DocExamples.newDocument
     = (Throw (MkError "empty document, can't append geometry"),
        DocExamples.newDocument).
Proof.
  apply (append_empty_document DocExamples.rootHasNoContent).
  - reflexivity.
  - intros p [= <-]. reflexivity.
Defined.

End CVDocumentExtra.

(** * Properties of CVCamera *)

Module CVCameraFacts.

Import CVCameraTs.

(** The record [toDocument] writes for the settings [ins]. *)
Lemma toDocument_run {Rest} (document : IDocument Rest) node ins :
  exists data,
    toDocument document node ins
    = (Normal ({| cameras := Some (default [] document.(cameras) ++ [data]);
                  rest := document.(rest) |},
               length (default [] document.(cameras))), ins)
    /\ match ins.(projection) with
       | Perspective =>
           data = {| type := "perspective";
                     perspective := Some {| yfov := ins.(fov); znear := ins.(near);
                                            zfar := ins.(far) |};
                     orthographic := None |}
       | Orthographic =>
           data = {| type := "orthographic";
                     perspective := None;
                     orthographic := Some {| ymag := ins.(size); oznear := ins.(near);
                                             ozfar := ins.(far) |} |}
       end.
Proof.
  unfold toDocument, bind, gets, ret. simpl.
  destruct (cameras document), (projection ins); eexists; split; reflexivity.
Qed.

(** X24.  Writing a camera with [toDocument] and reading the returned
    index back with [fromDocument] into any camera restores the
    projection, the near and far planes and the one field that belongs to
    the projection (the field of view, or the orthographic size); the
    other field is not part of the record and keeps the value the reading
    camera had.  The index is the previous number of cameras, and the rest
    of the document is not touched. *)
Theorem toDocument_fromDocument {Rest} (document : IDocument Rest) node source target :
  exists document' target',
    toDocument document node source
    = (Normal (document', length (default [] document.(cameras))), source)
    /\ document'.(rest) = document.(rest)
    /\ fromDocument document'
         {| camera := Some (length (default [] document.(cameras))) |} target
       = (Normal (length (default [] document.(cameras))), target')
    /\ target'.(projection) = source.(projection)
    /\ target'.(near) = source.(near)
    /\ target'.(far) = source.(far)
    /\ match source.(projection) with
       | Perspective =>
           target'.(fov) = source.(fov) /\ target'.(size) = target.(size)
       | Orthographic =>
           target'.(size) = source.(size) /\ target'.(fov) = target.(fov)
       end.
Proof.
  destruct (toDocument_run document node source) as (data & Hrun & Hdata).
  rewrite Hrun. clear Hrun.
  destruct (projection source); subst data;
    (eexists _, _; split; [reflexivity|]; split; [reflexivity|]);
    unfold fromDocument; cbn [camera cameras];
    rewrite list_lookup_middle by reflexivity;
    (split; [reflexivity|]); repeat split.
Qed.

(** X25.  [toDocument] only appends: every camera the document already
    had is read back exactly as before. *)
Theorem toDocument_keeps_cameras {Rest} (document : IDocument Rest) node source
    cams (j : nat) target :
  document.(cameras) = Some cams ->
  (j < length cams)%nat ->
  exists document' index,
    toDocument document node source = (Normal (document', index), source)
    /\ fromDocument document' {| camera := Some j |} target
       = fromDocument document {| camera := Some j |} target.
Proof.
  intros Hc Hj.
  destruct (toDocument_run document node source) as (data & Hrun & _).
  rewrite Hrun. eexists _, _. split; [reflexivity|].
  unfold fromDocument. cbn [camera cameras]. rewrite Hc. cbn [default].
  rewrite lookup_app_l by exact Hj. reflexivity.
Qed.

(** X26.  [fromDocument] copies nothing when it fails: whenever it throws
    (no camera index on the node, no camera array, an index outside the
    array, a record without the block its type announces) the settings
    are exactly as before; when it returns, it returns the index of the
    node. *)
Theorem fromDocument_throw_keeps_settings {Rest} (document : IDocument Rest)
    node ins :
  match fst (fromDocument document node ins) with
  | Throw _ => snd (fromDocument document node ins) = ins
  | Normal index => node.(camera) = Some index
  end
  /\ (node.(camera) = None ->
      fromDocument document node ins
      = (Throw (MkError "camera property missing in node"), ins)).
Proof.
  unfold fromDocument, bind, ret, throw, modify. split.
  - destruct (camera node) as [index|]; [|reflexivity].
    destruct (cameras document) as [cams|]; [|reflexivity].
    destruct (cams !! index) as [data|]; [|reflexivity].
    destruct (String.eqb (type data) "perspective");
      [destruct (perspective data)|destruct (orthographic data)]; reflexivity.
  - intros ->. reflexivity.
Qed.

Lemma toDocument_keeps_cameras_witness :
  exists document' index,
    toDocument
      {| cameras := Some [{| type := "orthographic"; perspective := None;
                             orthographic := Some {| ymag := 3%float;
                                                     oznear := 1%float;
                                                     ozfar := 9%float |} |}];
         rest := tt |}
      {| camera := None |} MoreExamples.wideAngle
    = (Normal (document', index), MoreExamples.wideAngle)
    /\ fromDocument document' {| camera := Some 0%nat |} MoreExamples.wideAngle
       = fromDocument
           {| cameras := Some [{| type := "orthographic"; perspective := None;
                                  orthographic := Some {| ymag := 3%float;
                                                          oznear := 1%float;
                                                          ozfar := 9%float |} |}];
              rest := tt |}
           {| camera := Some 0%nat |} MoreExamples.wideAngle.
Proof.
  eapply toDocument_keeps_cameras.
  - reflexivity.
  - simpl. lia.
Defined.

End CVCameraFacts.
